(** * Rag: query engine, vector processor, data connector, environment setup

    A shallow embedding of the TypeScript components of the repository and
    the properties of its retrieval pipeline.

    Conventions of the embedding.
    - A JavaScript string is a [string]: a sequence of code units, here the
      code units below 256 (Latin-1), one [ascii] each.  [toLowerCase],
      [trim] and the regular expression class [\s] are written out on that
      range.
    - A JavaScript number that counts or indexes is a [Z] (or a [nat] once
      it is known to be an index).  A score is the exact rational value of
      the decimal expression of the source ([1 - i * 0.15]); module [Ieee]
      evaluates the same expressions on binary64 and compares the two on an
      initial segment of indices.
    - A component ([useState] cells and the closures over them) is a record
      of its cells; a function of the component takes the record and
      returns the new record next to its result.
    - An [async] function returns an [Outcome]: the promise is resolved
      with a value or rejected with an error (named by its [name]). *)

From Stdlib Require Import ZArith QArith Lia Lqa.
From Stdlib Require Import Ascii String Sorted.
From Stdlib Require Import Floats.PrimFloat Numbers.Cyclic.Int63.Uint63.
From Stdlib Require Import Floats.SpecFloat Floats.FloatOps Floats.FloatAxioms.
From Stdlib Require Import DecimalString DecimalNat.
From stdpp Require Import base option list strings gmap.

Local Open Scope string_scope.

(** ** JavaScript strings *)

Module Js.

Definition code (c : ascii) : N := N_of_ascii c.

(** WhiteSpace and LineTerminator code units below 256: TAB, LF, VT, FF,
    CR, SPACE and NO-BREAK SPACE.  This is the class [\s] and the set
    that [trim] strips. *)
Definition is_space (c : ascii) : bool :=
  match code c with
  | 9%N | 10%N | 11%N | 12%N | 13%N | 32%N | 160%N => true
  | _ => false
  end.

(** ASCII punctuation. *)
Definition is_punct (c : ascii) : bool :=
  let n := code c in
  ((33 <=? n) && (n <=? 47) || (58 <=? n) && (n <=? 64)
   || (91 <=? n) && (n <=? 96) || (123 <=? n) && (n <=? 126))%N.

(** Upper-case letters below 256: A-Z, and the Latin-1 letters
    U+00C0-U+00DE without the multiplication sign U+00D7. *)
Definition is_upper (c : ascii) : bool :=
  let n := code c in
  ((65 <=? n) && (n <=? 90)
   || (192 <=? n) && (n <=? 222) && negb (n =? 215))%N.

Definition lower_char (c : ascii) : ascii :=
  if is_upper c then ascii_of_N (code c + 32) else c.

(** [String.prototype.toLowerCase] *)
Fixpoint toLowerCase (s : string) : string :=
  match s with
  | EmptyString => EmptyString
  | String c s' => String (lower_char c) (toLowerCase s')
  end.

(** [String.prototype.trimStart] *)
Fixpoint trimStart (s : string) : string :=
  match s with
  | EmptyString => EmptyString
  | String c s' => if is_space c then trimStart s' else s
  end.

(** [String.prototype.trimEnd]: the string without its last run of
    white space. *)
Fixpoint trimEnd (s : string) : string :=
  match s with
  | EmptyString => EmptyString
  | String c s' =>
      match trimEnd s' with
      | EmptyString => if is_space c then EmptyString else String c EmptyString
      | t => String c t
      end
  end.

(** [String.prototype.trim] *)
Definition trim (s : string) : string := trimEnd (trimStart s).

Definition starts_with_space (s : string) : bool :=
  match s with
  | EmptyString => false
  | String c _ => is_space c
  end.

Definition cons_head (c : ascii) (l : list string) : list string :=
  match l with
  | [] => [String c EmptyString]
  | t :: ts => String c t :: ts
  end.

(** [s.split(/\s+/)]: the pieces of [s] between the maximal runs of white
    space.  The empty string gives one empty piece; white space at either
    end of [s] gives an empty piece at that end. *)
Fixpoint split_ws (s : string) : list string :=
  match s with
  | EmptyString => [EmptyString]
  | String c s' =>
      if is_space c then
        if starts_with_space s' then split_ws s'
        else EmptyString :: split_ws s'
      else cons_head c (split_ws s')
  end.

(** [s.includes(t)]: [t] occurs in [s] as a contiguous piece. *)
Fixpoint includes (s t : string) : bool :=
  String.prefix t s ||
  match s with
  | EmptyString => false
  | String _ s' => includes s' t
  end.

(** Decimal rendering of a non-negative integer, as template literals
    and string concatenation render an integer-valued number. *)
Definition string_of_nat (n : nat) : string :=
  NilEmpty.string_of_uint (Nat.to_uint n).

(** The double quote character, U+0022. *)
Definition dquote : string := String (ascii_of_N 34) EmptyString.

End Js.

(** A settled promise. *)
Inductive Outcome (A : Type) : Type :=
| Resolved (value : A)
| Rejected (name : string).
Arguments Resolved {A} value.
Arguments Rejected {A} name.

(** ** QueryEngine.tsx *)

Inductive RetrievalStrategy := semantic | keyword | hybrid.

Record ProcessedQuery := {
  originalQuery : string;
  processedQuery : string;
  keyTerms : list string;
  queryVector : list Q
}.

(** [processQuery] *)
Definition processQuery (queryText : string) : ProcessedQuery :=
  {| originalQuery := queryText;
     processedQuery := Js.trim (Js.toLowerCase queryText);
     keyTerms :=
       filter (fun term => 3 < String.length term)
              (Js.split_ws (Js.toLowerCase queryText));
     queryVector := [] |}.

(** A value stored under a key of a [Record<string, any>]. *)
Inductive Value :=
| VStr (s : string)
| VNum (q : Q)
| VBool (b : bool).

Record RetrievalResult := {
  id : string;
  content : string;
  score : Q;
  metadata : gmap string Value
}.

Definition strategy_name (s : RetrievalStrategy) : string :=
  match s with
  | semantic => "semantic"
  | keyword => "keyword"
  | hybrid => "hybrid"
  end.

(** [a || b] on strings, where [a] may be [undefined]: the empty string and
    [undefined] are falsy. *)
Definition or_default (a : option string) (b : string) : string :=
  match a with
  | Some s => if decide (s = "") then b else s
  | None => b
  end.

(** [Array.from({ length: len }, (_, i) => f i)].  The length is clamped at
    0 from below; [Array(len)] throws a [RangeError] from 2^32 on. *)
Definition array_from_length {A : Type} (len : Z) (f : nat -> A)
  : Outcome (list A) :=
  if (2 ^ 32 <=? len)%Z then Rejected "RangeError"
  else Resolved (map f (seq 0 (Z.to_nat len))).

(** The cells of the [QueryEngine] component. *)
Record QueryEngine := {
  query : string;
  isSearching : bool;
  results : list RetrievalResult;
  strategy : RetrievalStrategy;
  filters : gmap string string;
  showFilters : bool
}.

Definition setIsSearching (b : bool) (st : QueryEngine) : QueryEngine :=
  {| query := query st; isSearching := b; results := results st;
     strategy := strategy st; filters := filters st;
     showFilters := showFilters st |}.

Definition setResults (r : list RetrievalResult) (st : QueryEngine)
  : QueryEngine :=
  {| query := query st; isSearching := isSearching st; results := r;
     strategy := strategy st; filters := filters st;
     showFilters := showFilters st |}.

(** The initial cells: [useState("")], [useState(false)], ... *)
Definition QueryEngine_init : QueryEngine :=
  {| query := ""; isSearching := false; results := [];
     strategy := hybrid;
     filters := <["bookname" := ""]> (<["chapter" := ""]> ∅);
     showFilters := false |}.

(** The element that [retrieveRelevantContent] builds at index [i]. *)
Definition mockResult (processedQuery : string) (strategy : RetrievalStrategy)
    (filters : gmap string string) (i : nat) : RetrievalResult :=
  {| id := "result-" ++ Js.string_of_nat i;
     content :=
       "This is a sample result for query " ++ Js.dquote ++ processedQuery
       ++ Js.dquote ++ " using " ++ strategy_name strategy ++ " strategy. "
       ++ (if decide (i = 0%nat) then "This is the most relevant result."
           else "This is result number " ++ Js.string_of_nat (i + 1) ++ ".");
     score := 1 - inject_Z (Z.of_nat i) * 0.15;
     metadata :=
       <["bookname" :=
           VStr (or_default (filters !! "bookname") "Sample Medical Book")]>
       (<["chapter" :=
           VStr (or_default (filters !! "chapter")
                            ("Chapter " ++ Js.string_of_nat (i + 1)))]>
       (<["question_number" := VNum (inject_Z (Z.of_nat i + 1))]> ∅)) |}.

(** [retrieveRelevantContent]: the promise it returns and the cells after
    it has settled.  When [Array.from] throws, [setIsSearching(false)] is
    not reached. *)
Definition retrieveRelevantContent (st : QueryEngine)
    (processedQuery : string) (strategy : RetrievalStrategy)
    (filters : gmap string string) (topK : Z)
  : Outcome (list RetrievalResult) * QueryEngine :=
  let st1 := setIsSearching true st in
  match array_from_length topK (mockResult processedQuery strategy filters) with
  | Resolved mockResults => (Resolved mockResults, setIsSearching false st1)
  | Rejected e => (Rejected e, st1)
  end.

(** The default of the parameter [topK]. *)
Definition default_topK : Z := 5.

(** [handleSearch]: returns at once on a blank query; otherwise processes
    the query, retrieves with the default [topK] and stores the results. *)
Definition handleSearch (st : QueryEngine) : QueryEngine :=
  if decide (Js.trim (query st) = "") then st
  else
    let processedQueryData := processQuery (query st) in
    match retrieveRelevantContent st (processedQuery processedQueryData)
            (strategy st) (filters st) default_topK with
    | (Resolved r, st') => setResults r st'
    | (Rejected _, st') => st'
    end.

(** What a caller can read from the array a retrieval resolves with: its
    own properties are [length] and its elements under their canonical
    decimal indices. *)
Inductive Property :=
| PNumber (q : Q)
| PString (s : string)
| PBoolean (b : bool)
| PRecord (m : gmap string Value)
| PResult (r : RetrievalResult).

Definition array_get (xs : list RetrievalResult) (name : string)
  : option Property :=
  if decide (name = "length") then Some (PNumber (inject_Z (Z.of_nat (length xs))))
  else
    match list_find (fun ir => Js.string_of_nat (fst ir) = name)
                    (imap (fun i r => (i, r)) xs) with
    | Some (_, (_, r)) => Some (PResult r)
    | None => None
    end.

(** The own properties of a [RetrievalResult]. *)
Definition result_get (r : RetrievalResult) (name : string) : option Property :=
  if decide (name = "id") then Some (PString (id r))
  else if decide (name = "content") then Some (PString (content r))
  else if decide (name = "score") then Some (PNumber (score r))
  else if decide (name = "metadata") then Some (PRecord (metadata r))
  else None.

(** ** VectorProcessor.tsx *)

(** [Math.random]: the sequence of numbers it will return, and how many
    have been drawn. *)
Record Random := {
  draws : nat -> Q;
  drawn : nat
}.

Definition Math_random (g : Random) : Q * Random :=
  (draws g (drawn g), {| draws := draws g; drawn := S (drawn g) |}).

(** [Array.from({ length: n }, () => Math.random())] for a literal [n]. *)
Fixpoint random_array (n : nat) (g : Random) : list Q * Random :=
  match n with
  | O => ([], g)
  | S n' =>
      let (x, g1) := Math_random g in
      let (xs, g2) := random_array n' g1 in
      (x :: xs, g2)
  end.

(** [embedText] *)
Definition embedText (g : Random) (text : string)
  : Outcome (list Q) * Random :=
  let (v, g') := random_array 1536 g in (Resolved v, g').

Record SimilarItem := {
  sim_id : string;
  sim_score : Q;
  sim_content : string
}.

Definition mockSimilar (i : nat) : SimilarItem :=
  {| sim_id := "mock-id-" ++ Js.string_of_nat i;
     sim_score := 1 - inject_Z (Z.of_nat i) * 0.1;
     sim_content := "This is a mock similar item " ++ Js.string_of_nat (i + 1) |}.

(** [findSimilar] *)
Definition findSimilar (text : string) (topK : Z) : Outcome (list SimilarItem) :=
  array_from_length topK mockSimilar.

(** ** DataConnector.tsx *)

(** [options] is a [Record<string, string>]; it is kept as its entries in
    the order [Object.entries] lists them. *)
Record QuizQuestion := {
  q_id : string;
  question : string;
  options : list (string * string);
  correct_answer : string;
  answer_details : string;
  bookname : string;
  chapter : option string;
  chapter_index : option Z;
  question_number : option Z;
  setorder : option Z;
  active : bool;
  created_at : string
}.

Record Metadata := {
  m_bookname : string;
  m_chapter : option string;
  m_chapter_index : option Z;
  m_question_number : option Z;
  m_correct_answer : string
}.

Record VectorReadyQuestion := {
  v_id : string;
  v_content : string;
  v_metadata : Metadata
}.

(** The line feed, U+000A. *)
Definition nl : string := String (ascii_of_N 10) EmptyString.

Definition optionsText (q : QuizQuestion) : string :=
  String.concat nl (map (fun kv => fst kv ++ ": " ++ snd kv) (options q)).

(** The template literal of [transformQuestionData], before [trim]. *)
Definition content_template (q : QuizQuestion) : string :=
  nl ++ "      Question: " ++ question q ++
  nl ++ "      Options:" ++
  nl ++ "      " ++ optionsText q ++
  nl ++ "      Correct Answer: " ++ correct_answer q ++
  nl ++ "      Answer Details: " ++ answer_details q ++
  nl ++ "    ".

(** [transformQuestionData] *)
Definition transformQuestionData (q : QuizQuestion) : VectorReadyQuestion :=
  {| v_id := q_id q;
     v_content := Js.trim (content_template q);
     v_metadata :=
       {| m_bookname := bookname q;
          m_chapter := chapter q;
          m_chapter_index := chapter_index q;
          m_question_number := question_number q;
          m_correct_answer := correct_answer q |} |}.

(** ** EnvironmentSetup.tsx *)

Inductive ConfigStatus := unconfigured | configuring | testing | valid | invalid.

(** The keys of [ServiceConfig]. *)
Inductive ConfigKey := k_name | k_status | k_key | k_endpoint | k_description.

Inductive ConfigValue :=
| CStr (s : string)
| CStatus (s : ConfigStatus).

(** An object over the keys of [ServiceConfig]: a key is bound to a value
    or reads as [undefined] ([None]).  A [ServiceConfig] binds every key
    but possibly [endpoint]. *)
Record ConfigObject := {
  c_name : option string;
  c_status : option ConfigStatus;
  c_key : option string;
  c_endpoint : option string;
  c_description : option string
}.

(** A [Partial<ServiceConfig>]: a key is not named ([None]), or named with
    a value or with [undefined] ([Some v], [Some None]). *)
Record ConfigUpdate := {
  u_name : option (option string);
  u_status : option (option ConfigStatus);
  u_key : option (option string);
  u_endpoint : option (option string);
  u_description : option (option string)
}.

Definition read (o : ConfigObject) (k : ConfigKey) : option ConfigValue :=
  match k with
  | k_name => CStr <$> c_name o
  | k_status => CStatus <$> c_status o
  | k_key => CStr <$> c_key o
  | k_endpoint => CStr <$> c_endpoint o
  | k_description => CStr <$> c_description o
  end.

Definition names (u : ConfigUpdate) (k : ConfigKey) : bool :=
  match k with
  | k_name => bool_decide (is_Some (u_name u))
  | k_status => bool_decide (is_Some (u_status u))
  | k_key => bool_decide (is_Some (u_key u))
  | k_endpoint => bool_decide (is_Some (u_endpoint u))
  | k_description => bool_decide (is_Some (u_description u))
  end.

(** The object [{}], which is also what spreading [undefined] gives. *)
Definition empty_object : ConfigObject :=
  {| c_name := None; c_status := None; c_key := None;
     c_endpoint := None; c_description := None |}.

(** [{ ...o, ...u }] *)
Definition spread (o : ConfigObject) (u : ConfigUpdate) : ConfigObject :=
  {| c_name := default (c_name o) (u_name u);
     c_status := default (c_status o) (u_status u);
     c_key := default (c_key o) (u_key u);
     c_endpoint := default (c_endpoint o) (u_endpoint u);
     c_description := default (c_description o) (u_description u) |}.

(** An array of configurations, as the list of its elements: an element is
    an object, or a hole or [undefined] ([None]); the two read alike and
    are not told apart.  The list holds nothing but the elements, so
    [element] is what [configs[j]] reads at an array index [j] (from 0 to
    2^32 - 2), and at any other integer only on an array that carries no
    property under it. *)
Definition element (configs : list (option ConfigObject)) (j : Z)
  : option ConfigObject :=
  if (j <? 0)%Z then None else mjoin (configs !! Z.to_nat j).

(** The elements after [a[index] = x] on a copy of [a].  An index from 0 to
    2^32 - 2 is an array index: the element is replaced, and past the end
    the array grows, with holes up to [index].  For any other integer the
    source stores [x] as a plain property of the array object; its elements
    stay as they are, which is all this list says, and the property itself
    is outside the list.  The statements about [array_set] are therefore
    made for array indices ([array_index]). *)
Definition array_set (a : list (option ConfigObject)) (index : Z)
    (x : ConfigObject) : list (option ConfigObject) :=
  if ((0 <=? index) && (index <? 2 ^ 32 - 1))%Z then
    let i := Z.to_nat index in
    if decide (i < length a)%nat then <[i := Some x]> a
    else a ++ replicate (i - length a) None ++ [Some x]
  else a.

(** The cells of the [EnvironmentSetup] component. *)
Record EnvironmentSetup := {
  configs : list (option ConfigObject);
  activeTab : string;
  isSaving : bool;
  saveSuccess : bool
}.

Definition setConfigs (c : list (option ConfigObject)) (st : EnvironmentSetup)
  : EnvironmentSetup :=
  {| configs := c; activeTab := activeTab st; isSaving := isSaving st;
     saveSuccess := saveSuccess st |}.

(** [updateConfig] *)
Definition updateConfig (st : EnvironmentSetup) (index : Z)
    (updates : ConfigUpdate) : EnvironmentSetup :=
  let newConfigs := configs st in
  let old := default empty_object (element newConfigs index) in
  setConfigs (array_set newConfigs index (spread old updates)) st.

(** An update that names [status] only: [{ status: s }]. *)
Definition status_update (s : ConfigStatus) : ConfigUpdate :=
  {| u_name := None; u_status := Some (Some s); u_key := None;
     u_endpoint := None; u_description := None |}.

(** [updateConfig] as the closure of a render in which the cell [configs]
    held [closed], called when the cells are [st]. *)
Definition updateConfig_from (closed : list (option ConfigObject))
    (st : EnvironmentSetup) (index : Z) (updates : ConfigUpdate)
  : EnvironmentSetup :=
  let newConfigs := closed in
  let old := default empty_object (element newConfigs index) in
  setConfigs (array_set newConfigs index (spread old updates)) st.

(** [testConfig], run with no other event in between.  Both calls of
    [updateConfig] are calls of the closure of the render that created
    [testConfig], so both start from the [configs] of that render.
    [config.key] throws a [TypeError] when [config] is [undefined], and
    [config.key.trim()] when the key is. *)
Definition testConfig (st : EnvironmentSetup) (index : Z)
  : Outcome unit * EnvironmentSetup :=
  let config := element (configs st) index in
  let st1 := updateConfig_from (configs st) st index (status_update testing) in
  match config with
  | None => (Rejected "TypeError", st1)
  | Some o =>
      match c_key o with
      | None => (Rejected "TypeError", st1)
      | Some key =>
          if decide (10 < String.length (Js.trim key))
          then (Resolved (),
                updateConfig_from (configs st) st1 index (status_update valid))
          else (Resolved (),
                updateConfig_from (configs st) st1 index (status_update invalid))
      end
  end.

(** ** DataConnector.tsx: fetchQuestions *)

Module DataConnector.

(** The optional argument of [fetchQuestions]. *)
Record Filters := {
  bookname : option string;
  chapter : option string;
  active : option bool;
  limit : option Z;
  offset : option Z
}.

Inductive ColumnValue :=
| CText (s : string)
| CFlag (b : bool).

(** The calls made on the query builder after
    [from("quiz_questions").select("*")], in order. *)
Inductive Call :=
| call_eq (column : string) (value : ColumnValue)
| call_limit (count : Z)
| call_range (from to : Z).

(** What awaiting the query gives: the row data and the error (its
    message), or a rejection with the message of what was thrown. *)
Record Response := {
  data : option (list QuizQuestion);
  error : option string
}.

(** The Supabase client, as far as [fetchQuestions] uses it: the calls made
    on the builder determine what awaiting it gives. *)
Definition Client := list Call -> Outcome Response.

(** A string in a condition: [undefined] and the empty string are falsy. *)
Definition truthy_string (s : option string) : option string :=
  match s with
  | Some t => if decide (t = "") then None else Some t
  | None => None
  end.

(** A number in a condition: [undefined] and 0 are falsy. *)
Definition truthy_number (n : option Z) : option Z :=
  match n with
  | Some z => if decide (z = 0%Z) then None else Some z
  | None => None
  end.

(** The calls [fetchQuestions] makes on the builder for [filters].  The
    numbers of the filters are integers, and the end of the range is
    computed on integers; the source computes it on binary64, which gives
    the same while the limit and the offset are below 2^52 in absolute
    value ([small_integer]).  The statement about the range is made for
    such filters. *)
Definition build (filters : option Filters) : list Call :=
  match filters with
  | None => []
  | Some f =>
      match truthy_string (bookname f) with
      | Some b => [call_eq "bookname" (CText b)]
      | None => []
      end
      ++ match truthy_string (chapter f) with
         | Some c => [call_eq "chapter" (CText c)]
         | None => []
         end
      ++ match active f with
         | Some a => [call_eq "active" (CFlag a)]
         | None => []
         end
      ++ match truthy_number (limit f) with
         | Some n => [call_limit n]
         | None => []
         end
      ++ match truthy_number (offset f) with
         | Some o =>
             [call_range o (o + default 10%Z (truthy_number (limit f)) - 1)%Z]
         | None => []
         end
  end.

(** [fetchQuestions]: with the cell [supabase] and the optional filters. *)
Definition fetchQuestions (supabase : option Client) (filters : option Filters)
  : Response :=
  match supabase with
  | None => {| data := None; error := Some "Supabase client not initialized" |}
  | Some client =>
      match client (build filters) with
      | Resolved r =>
          match error r with
          | Some message => {| data := None; error := Some message |}
          | None => {| data := data r; error := None |}
          end
      | Rejected message => {| data := None; error := Some message |}
      end
  end.

End DataConnector.

(** ** Numbers as binary64 *)

Module JsMath.

(** The double of an integer below 2^63 in absolute value. *)
Definition of_Z (z : Z) : float :=
  if (z <? 0)%Z then PrimFloat.opp (of_uint63 (Uint63.of_Z (- z)))
  else of_uint63 (Uint63.of_Z z).

Definition of_nat (n : nat) : float := of_Z (Z.of_nat n).

(** [Math.round]: the nearest integer, a tie going up.  A finite double is
    [n * 2^e] for integers [n] and [e]; from [e = 0] on it is an integer
    already, and below, the rounded value is the integer part of
    [(2n + 2^-e) / 2^(1-e)].  Zeros, infinities and NaN are returned as
    they are, and a negative argument that rounds to zero gives [-0]. *)
Definition Math_round (x : float) : float :=
  match Prim2SF x with
  | S754_finite s m e =>
      if (0 <=? e)%Z then x
      else
        let n := if s then Z.neg m else Z.pos m in
        let r := ((2 * n + 2 ^ (- e)) / 2 ^ (1 - e))%Z in
        if (r =? 0)%Z then (if s then (-0)%float else 0%float) else of_Z r
  | _ => x
  end.

End JsMath.

(** ** VectorProcessor.tsx: the batch *)

Module VectorProcessor.

Inductive Status := idle | processing | complete | error_.

Inductive EmbeddingModel := openai | cohere | local.

Inductive VectorStorage := memory | supabase | pinecone.

(** The cells of the [VectorProcessor] component. *)
Record Cells := {
  processingStatus : Status;
  progress : float;
  totalItems : nat;
  processedItems : nat;
  error : option string;
  embeddingModel : EmbeddingModel;
  storageType : VectorStorage
}.

Definition init : Cells :=
  {| processingStatus := idle; progress := 0%float; totalItems := 0;
     processedItems := 0; error := None; embeddingModel := openai;
     storageType := memory |}.

Definition setProcessingStatus (s : Status) (st : Cells) : Cells :=
  {| processingStatus := s; progress := progress st;
     totalItems := totalItems st; processedItems := processedItems st;
     error := error st; embeddingModel := embeddingModel st;
     storageType := storageType st |}.

Definition setProgress (p : float) (st : Cells) : Cells :=
  {| processingStatus := processingStatus st; progress := p;
     totalItems := totalItems st; processedItems := processedItems st;
     error := error st; embeddingModel := embeddingModel st;
     storageType := storageType st |}.

Definition setTotalItems (n : nat) (st : Cells) : Cells :=
  {| processingStatus := processingStatus st; progress := progress st;
     totalItems := n; processedItems := processedItems st;
     error := error st; embeddingModel := embeddingModel st;
     storageType := storageType st |}.

Definition setProcessedItems (n : nat) (st : Cells) : Cells :=
  {| processingStatus := processingStatus st; progress := progress st;
     totalItems := totalItems st; processedItems := n;
     error := error st; embeddingModel := embeddingModel st;
     storageType := storageType st |}.

Definition setError (e : option string) (st : Cells) : Cells :=
  {| processingStatus := processingStatus st; progress := progress st;
     totalItems := totalItems st; processedItems := processedItems st;
     error := e; embeddingModel := embeddingModel st;
     storageType := storageType st |}.

(** [Math.round(((i + 1) / questions.length) * 100)] *)
Definition percent (i len : nat) : float :=
  JsMath.Math_round (JsMath.of_nat (i + 1) / JsMath.of_nat len * 100)%float.

(** The [for] loop of [processBatch] from index [i] on, [rest] being the
    questions from that index.  A rejected [embedText] leaves the loop for
    the [catch] block. *)
Fixpoint batch_loop (len i : nat) (rest : list VectorReadyQuestion)
    (st : Cells) (g : Random) : Cells * Random :=
  match rest with
  | [] => (setProcessingStatus complete st, g)
  | question :: rest' =>
      match embedText g (v_content question) with
      | (Resolved embedding, g') =>
          batch_loop len (S i) rest'
            (setProgress (percent i len) (setProcessedItems (i + 1) st)) g'
      | (Rejected message, g') =>
          (setProcessingStatus error_ (setError (Some message) st), g')
      end
  end.

(** [processBatch] *)
Definition processBatch (st : Cells) (g : Random)
    (questions : list VectorReadyQuestion) : Cells * Random :=
  let st1 :=
    setProgress 0%float
      (setProcessedItems 0
         (setTotalItems (length questions)
            (setProcessingStatus processing st))) in
  batch_loop (length questions) 0 questions st1 g.

(** The element of [sampleQuestions] at index [i].  [Math.floor(i / 3)] is
    the integer quotient. *)
Definition sampleQuestion (i : nat) : VectorReadyQuestion :=
  {| v_id := "sample-" ++ Js.string_of_nat i;
     v_content :=
       "Sample question " ++ Js.string_of_nat (i + 1)
       ++ " with some medical content about anatomy.";
     v_metadata :=
       {| m_bookname := "Sample Medical Book";
          m_chapter := Some ("Chapter " ++ Js.string_of_nat (i / 3 + 1));
          m_chapter_index := Some (Z.of_nat (i / 3 + 1));
          m_question_number := Some (Z.of_nat (i + 1));
          m_correct_answer := "Sample answer" |} |}.

(** [handleProcessSample] *)
Definition handleProcessSample (st : Cells) (g : Random) : Cells * Random :=
  processBatch st g (map sampleQuestion (seq 0 10)).

End VectorProcessor.

(** ** ModelConnector.tsx *)

Module ModelConnector.

Section Numbers.

(** The numbers of the parameters and how a template literal renders
    one. *)
Variable number : Type.
Variable render : number -> string.

Record ModelParameters := {
  temperature : number;
  maxTokens : number;
  topP : number;
  frequencyPenalty : number;
  presencePenalty : number
}.

(** The cells of the [ModelConnector] component. *)
Record Cells := {
  prompt : string;
  response : string;
  isGenerating : bool;
  error : option string;
  parameters : ModelParameters;
  showAdvanced : bool
}.

Definition setResponse (r : string) (st : Cells) : Cells :=
  {| prompt := prompt st; response := r; isGenerating := isGenerating st;
     error := error st; parameters := parameters st;
     showAdvanced := showAdvanced st |}.

Definition setIsGenerating (b : bool) (st : Cells) : Cells :=
  {| prompt := prompt st; response := response st; isGenerating := b;
     error := error st; parameters := parameters st;
     showAdvanced := showAdvanced st |}.

Definition setError (e : option string) (st : Cells) : Cells :=
  {| prompt := prompt st; response := response st;
     isGenerating := isGenerating st; error := e;
     parameters := parameters st; showAdvanced := showAdvanced st |}.

(** [fullPrompt]; the empty context is falsy. *)
Definition fullPrompt (promptText retrievedContext : string) : string :=
  if decide (retrievedContext = "") then promptText
  else "Context information:" ++ nl ++ retrievedContext ++ nl ++ nl
       ++ "Question: " ++ promptText ++ nl ++ nl ++ "Answer:".

(** [mockResponse] *)
Definition mockResponse (promptText : string) (params : ModelParameters)
  : string :=
  "This is a simulated response from the Deepseek-r1 model via OpenRouter API."
  ++ nl ++ "      " ++ nl ++
  "In a real implementation, this would contain the model's response to your prompt:"
  ++ nl ++ Js.dquote ++ promptText ++ Js.dquote ++ nl ++ nl ++
  "The response would be generated using the following parameters:" ++ nl ++
  "- Temperature: " ++ render (temperature params) ++ nl ++
  "- Max Tokens: " ++ render (maxTokens params) ++ nl ++
  "- Top P: " ++ render (topP params) ++ nl ++
  "- Frequency Penalty: " ++ render (frequencyPenalty params) ++ nl ++
  "- Presence Penalty: " ++ render (presencePenalty params) ++ nl ++ nl ++
  "For medical exam questions, the model would provide detailed explanations based on the retrieved context.".

(** The streaming loop: [setResponse((prev) => prev + text[i])] for every
    index of [text]. *)
Fixpoint stream (text : string) (st : Cells) : Cells :=
  match text with
  | EmptyString => st
  | String c text' =>
      stream text' (setResponse (response st ++ String c EmptyString) st)
  end.

(** [generateResponse]; nothing in its [try] block throws. *)
Definition generateResponse (st : Cells) (promptText retrievedContext : string)
    (params : ModelParameters) : Cells :=
  let st1 := setResponse "" (setError None (setIsGenerating true st)) in
  let full := fullPrompt promptText retrievedContext in
  let st2 := stream (mockResponse promptText params) st1 in
  setIsGenerating false st2.

(** [handleSubmit] *)
Definition handleSubmit (st : Cells) : Cells :=
  if decide (Js.trim (prompt st) = "") then st
  else generateResponse st (prompt st) "" (parameters st).

End Numbers.

End ModelConnector.

(** ** Notions the properties are stated with *)

(** [s] begins with a character that is not a separator. *)
Definition starts_token (sep : ascii -> bool) (s : string) : bool :=
  match s with
  | EmptyString => false
  | String c _ => negb (sep c)
  end.

(** The tokens of [s]: its maximal runs of characters that are not
    separators, in order. *)
Fixpoint tokens (sep : ascii -> bool) (s : string) : list string :=
  match s with
  | EmptyString => []
  | String c s' =>
      if sep c then tokens sep s'
      else if starts_token sep s' then Js.cons_head c (tokens sep s')
      else String c EmptyString :: tokens sep s'
  end.

(** Duplicates removed, the first occurrence of each element kept. *)
Fixpoint dedup_first (l : list string) : list string :=
  match l with
  | [] => []
  | x :: l' => x :: filter (fun y => y <> x) (dedup_first l')
  end.

Definition long_term (term : string) : Prop := 3 < String.length term.

Definition space_or_punct (c : ascii) : bool := Js.is_space c || Js.is_punct c.

(** The key terms as the specification words them: lowercase and trim,
    split on white space and punctuation, keep the tokens longer than 3,
    remove duplicates keeping first occurrences. *)
Definition spec_key_terms (raw_text : string) : list string :=
  dedup_first
    (filter long_term (tokens space_or_punct (Js.trim (Js.toLowerCase raw_text)))).

(** The same with white space as the only separator and duplicates kept. *)
Definition whitespace_key_terms (raw_text : string) : list string :=
  filter long_term (tokens Js.is_space (Js.trim (Js.toLowerCase raw_text))).

(** The result of a retrieval carries a [degraded] flag that is true: on
    the sequence itself, on one of its items, or in the metadata of one. *)
Definition carries_degraded (out : list RetrievalResult) : Prop :=
  array_get out "degraded" = Some (PBoolean true)
  \/ exists r, r ∈ out /\
       (result_get r "degraded" = Some (PBoolean true)
        \/ metadata r !! "degraded" = Some (VBool true)).

(** Nothing is readable under the name [degraded] anywhere in the result. *)
Definition no_degraded_property (out : list RetrievalResult) : Prop :=
  array_get out "degraded" = None
  /\ forall r, r ∈ out ->
       result_get r "degraded" = None /\ metadata r !! "degraded" = None.

(** A score lies in the closed unit interval. *)
Definition in_unit_interval (q : Q) : Prop := (0 <= q /\ q <= 1)%Q.

(** [a] may stand before [b] in a ranking: its score is larger, or the
    scores are equal and its id is not after that of [b]. *)
Definition ranked_before (a b : RetrievalResult) : Prop :=
  (score b < score a)%Q \/
  ((score a == score b)%Q /\ String.leb (id a) (id b) = true).

(** The content of a transformed question up to the label of the answer
    details, and the rest of the template from that label on. *)
Definition content_body (q : QuizQuestion) : string :=
  "Question: " ++ question q ++
  nl ++ "      Options:" ++
  nl ++ "      " ++ optionsText q ++
  nl ++ "      Correct Answer: " ++ correct_answer q ++
  nl ++ "      ".

Definition content_tail (q : QuizQuestion) : string :=
  "Answer Details: " ++ answer_details q ++ nl ++ "    ".

(** A question whose answer details end in a space. *)
Definition aorta_question : QuizQuestion :=
  {| q_id := "q-17";
     question := "Which vessel leaves the left ventricle?";
     options := [("A", "Aorta"); ("B", "Vena cava")];
     correct_answer := "A";
     answer_details := "The aorta. ";
     bookname := "Anatomy";
     chapter := Some "Heart";
     chapter_index := Some 3%Z;
     question_number := Some 17%Z;
     setorder := None;
     active := true;
     created_at := "2024-01-01" |}.

(** What reading key [k] of the element at index [j] gives; a key of a
    missing element counts as [undefined]. *)
Definition read_at (configs : list (option ConfigObject)) (j : Z)
    (k : ConfigKey) : option ConfigValue :=
  element configs j ≫= fun o => read o k.

(** Every character of [s] satisfies [p]. *)
Fixpoint string_forall (p : ascii -> bool) (s : string) : bool :=
  match s with
  | EmptyString => true
  | String c s' => p c && string_forall p s'
  end.

Definition not_space (c : ascii) : bool := negb (Js.is_space c).

Definition not_upper (c : ascii) : bool := negb (Js.is_upper c).

(** Filters with a bookname only. *)
Definition anatomy_filters : gmap string string :=
  <["bookname" := "Anatomy"]> ∅.

(** The cells after "Chest pain" has been typed into the query field. *)
Definition chest_pain_typed : QueryEngine :=
  {| query := "Chest pain"; isSearching := false; results := [];
     strategy := hybrid; filters := filters QueryEngine_init;
     showFilters := false |}.

(** What key [k] reads as once update [u], which names it, is applied. *)
Definition named_value (u : ConfigUpdate) (k : ConfigKey) : option ConfigValue :=
  match k with
  | k_name => CStr <$> mjoin (u_name u)
  | k_status => CStatus <$> mjoin (u_status u)
  | k_key => CStr <$> mjoin (u_key u)
  | k_endpoint => CStr <$> mjoin (u_endpoint u)
  | k_description => CStr <$> mjoin (u_description u)
  end.

Definition later {A : Type} (first second : option A) : option A :=
  match second with
  | Some v => Some v
  | None => first
  end.

(** [{ ...u1, ...u2 }] on updates: a key named by both takes the value of
    the second. *)
Definition merge_updates (u1 u2 : ConfigUpdate) : ConfigUpdate :=
  {| u_name := later (u_name u1) (u_name u2);
     u_status := later (u_status u1) (u_status u2);
     u_key := later (u_key u1) (u_key u2);
     u_endpoint := later (u_endpoint u1) (u_endpoint u2);
     u_description := later (u_description u1) (u_description u2) |}.

(** [index] is an array index. *)
Definition array_index (index : Z) : Prop := (0 <= index < 2 ^ 32 - 1)%Z.

(** A configuration list with the one service of the examples. *)
Definition openrouter_config (key : string) : ConfigObject :=
  {| c_name := Some "openrouter"; c_status := Some unconfigured;
     c_key := Some key; c_endpoint := Some "https://openrouter.ai/api/v1";
     c_description := Some "OpenRouter API for accessing Deepseek-r1 model" |}.

Definition one_service (key : string) : EnvironmentSetup :=
  {| configs := [Some (openrouter_config key)]; activeTab := "api-keys";
     isSaving := false; saveSuccess := false |}.

(** An integer on which [offset + limit - 1] is exact on binary64. *)
Definition small_integer (z : Z) : Prop := (- 2 ^ 52 < z < 2 ^ 52)%Z.

(** The limit and the offset of the filters, where given, are small. *)
Definition small_filters (f : DataConnector.Filters) : Prop :=
  (forall n, DataConnector.limit f = Some n -> small_integer n)
  /\ (forall o, DataConnector.offset f = Some o -> small_integer o).

(** The second page of 25 rows of a book. *)
Definition page_two : DataConnector.Filters :=
  {| DataConnector.bookname := Some "Anatomy";
     DataConnector.chapter := None;
     DataConnector.active := Some true;
     DataConnector.limit := Some 25%Z;
     DataConnector.offset := Some 25%Z |}.

(** [a] stands strictly before [b]: its score is larger. *)
Definition scored_above (a b : RetrievalResult) : Prop :=
  (score b < score a)%Q.

(** ** The scores on binary64 *)

Module Ieee.

Import PrimFloat.

Definition index (i : nat) : float := of_uint63 (Uint63.of_Z (Z.of_nat i)).

(** [1 - i * 0.15] *)
#[warnings="-inexact-float"]
Definition retrieval_score (i : nat) : float := (1 - index i * 0.15)%float.

(** [1 - i * 0.1] *)
#[warnings="-inexact-float"]
Definition similar_score (i : nat) : float := (1 - index i * 0.1)%float.

(** The double [f] and the rational [q] compare to 0 and to 1 alike. *)
Definition agree (f : float) (q : Q) : bool :=
  match (q ?= 0)%Q with
  | Lt => ltb f 0
  | Eq => eqb f 0
  | Gt => ltb 0 f
  end
  &&
  match (q ?= 1)%Q with
  | Lt => ltb f 1
  | Eq => eqb f 1
  | Gt => ltb 1 f
  end.

End Ieee.

(** * Properties *)

(** ** The functions on small inputs *)

Example split_ws_spaces : Js.split_ws " a  b " = [""; "a"; "b"; ""].
Proof. reflexivity. Qed.

Example split_ws_empty : Js.split_ws "" = [""].
Proof. reflexivity. Qed.

Example trim_both_ends : Js.trim (nl ++ "  a b  " ++ nl) = "a b".
Proof. reflexivity. Qed.

Example processQuery_cardiac :
  processQuery "  Cardiac  SYMPTOMS of the heart " =
  {| originalQuery := "  Cardiac  SYMPTOMS of the heart ";
     processedQuery := "cardiac  symptoms of the heart";
     keyTerms := ["cardiac"; "symptoms"; "heart"];
     queryVector := [] |}.
Proof. vm_compute. reflexivity. Qed.

Example handleSearch_blank :
  handleSearch QueryEngine_init = QueryEngine_init.
Proof. reflexivity. Qed.

Example handleSearch_results :
  let st :=
    {| query := "Chest pain"; isSearching := false; results := [];
       strategy := hybrid; filters := filters QueryEngine_init;
       showFilters := false |} in
  map (fun r => (id r, score r, metadata r !! "chapter"))
      (results (handleSearch st)) =
  [("result-0", 1 - 0 * 0.15, Some (VStr "Chapter 1"));
   ("result-1", 1 - 1 * 0.15, Some (VStr "Chapter 2"));
   ("result-2", 1 - 2 * 0.15, Some (VStr "Chapter 3"));
   ("result-3", 1 - 3 * 0.15, Some (VStr "Chapter 4"));
   ("result-4", 1 - 4 * 0.15, Some (VStr "Chapter 5"))]%Q.
Proof. vm_compute. reflexivity. Qed.

Example mockResult_content :
  content (mockResult "chest pain" semantic ∅ 2) =
  "This is a sample result for query " ++ Js.dquote ++ "chest pain"
  ++ Js.dquote ++ " using semantic strategy. This is result number 3.".
Proof. vm_compute. reflexivity. Qed.

Example array_get_index :
  array_get (map (mockResult "chest pain" keyword ∅) (seq 0 5)) "3"
  = Some (PResult (mockResult "chest pain" keyword ∅ 3))
  /\ array_get (map (mockResult "chest pain" keyword ∅) (seq 0 5)) "5" = None
  /\ array_get (map (mockResult "chest pain" keyword ∅) (seq 0 5)) "03" = None.
Proof. repeat split. Qed.

Example transform_aorta :
  v_content (transformQuestionData aorta_question) =
  "Question: Which vessel leaves the left ventricle?" ++ nl ++
  "      Options:" ++ nl ++
  "      A: Aorta" ++ nl ++
  "B: Vena cava" ++ nl ++
  "      Correct Answer: A" ++ nl ++
  "      Answer Details: The aorta.".
Proof. vm_compute. reflexivity. Qed.

Example updateConfig_grows :
  let o := {| c_name := Some "openrouter"; c_status := Some unconfigured;
              c_key := Some ""; c_endpoint := None;
              c_description := Some "" |} in
  let u := {| u_name := None; u_status := Some (Some testing); u_key := None;
              u_endpoint := None; u_description := None |} in
  let st := {| configs := [Some o]; activeTab := "api-keys";
               isSaving := false; saveSuccess := false |} in
  configs (updateConfig st 0 u)
  = [Some {| c_name := Some "openrouter"; c_status := Some testing;
             c_key := Some ""; c_endpoint := None; c_description := Some "" |}]
  /\ configs (updateConfig st 2 u)
     = [Some o; None;
        Some {| c_name := None; c_status := Some testing; c_key := None;
                c_endpoint := None; c_description := None |}]
  /\ configs (updateConfig st (-1) u) = [Some o].
Proof. repeat split. Qed.

(** ** The query processor *)

Section Tokens.

Lemma split_ws_head (s : string) :
  exists h t, Js.split_ws s = h :: t /\
              (h = EmptyString <-> starts_token Js.is_space s = false).
Proof.
  induction s as [|c s IH]; simpl.
  - exists EmptyString, []. tauto.
  - destruct IH as (h & t & E & Hh).
    destruct (Js.is_space c) eqn:Hc; simpl.
    + destruct (Js.starts_with_space s) eqn:Hs.
      * exists h, t. split; [exact E|].
        split; [reflexivity|]. intros _. apply Hh.
        destruct s; simpl in *; [reflexivity | now rewrite Hs].
      * exists EmptyString, (Js.split_ws s). tauto.
    + rewrite E. simpl. exists (String c h), t.
      split; [reflexivity|]. split; discriminate.
Qed.

Lemma starts_token_space (s : string) :
  starts_token Js.is_space s = false ->
  s = EmptyString \/ Js.starts_with_space s = true.
Proof.
  destruct s as [|c s]; simpl; [now left|].
  destruct (Js.is_space c); [now right | discriminate].
Qed.

(** The non-empty pieces of [split(/\s+/)] are the white-space tokens. *)
Lemma split_ws_tokens (s : string) :
  filter (fun t => t <> EmptyString) (Js.split_ws s) = tokens Js.is_space s.
Proof.
  induction s as [|c s IH]; simpl.
  - rewrite filter_cons_False by (intros H; now apply H). reflexivity.
  - destruct (Js.is_space c) eqn:Hc.
    + destruct (Js.starts_with_space s); [exact IH|].
      rewrite filter_cons_False by (intros H; now apply H). exact IH.
    + destruct (split_ws_head s) as (h & t & E & Hh).
      rewrite E in *. simpl.
      rewrite filter_cons_True by discriminate.
      destruct (starts_token Js.is_space s) eqn:Hs.
      * rewrite filter_cons_True in IH
          by (intros ->; destruct Hh as [Hh _]; now specialize (Hh eq_refl)).
        rewrite <- IH. reflexivity.
      * destruct Hh as [_ Hh]. rewrite (Hh eq_refl) in *.
        rewrite filter_cons_False in IH by (intros H; now apply H).
        now rewrite IH.
Qed.

Lemma tokens_trimStart (s : string) :
  tokens Js.is_space (Js.trimStart s) = tokens Js.is_space s.
Proof.
  induction s as [|c s IH]; simpl; [reflexivity|].
  destruct (Js.is_space c) eqn:Hc; [exact IH|].
  simpl. now rewrite Hc.
Qed.

Lemma trimEnd_empty_tokens (s : string) :
  Js.trimEnd s = EmptyString -> tokens Js.is_space s = [].
Proof.
  induction s as [|c s IH]; simpl; [reflexivity|].
  destruct (Js.trimEnd s) eqn:E.
  - destruct (Js.is_space c); [intros _; now apply IH | discriminate].
  - discriminate.
Qed.

Lemma trimEnd_starts_token (s : string) :
  starts_token Js.is_space (Js.trimEnd s) = starts_token Js.is_space s.
Proof.
  destruct s as [|c s]; simpl; [reflexivity|].
  destruct (Js.trimEnd s) eqn:E; simpl; [|reflexivity].
  destruct (Js.is_space c) eqn:Hc; simpl; now rewrite ?Hc.
Qed.

Lemma tokens_trimEnd (s : string) :
  tokens Js.is_space (Js.trimEnd s) = tokens Js.is_space s.
Proof.
  induction s as [|c s IH]; simpl; [reflexivity|].
  pose proof (trimEnd_starts_token s) as Hst.
  pose proof (trimEnd_empty_tokens s) as Hemp.
  destruct (Js.trimEnd s) as [|d t] eqn:E.
  - rewrite (Hemp eq_refl). simpl in Hst. rewrite <- Hst.
    destruct (Js.is_space c) eqn:Hc; simpl; now rewrite ?Hc.
  - simpl. rewrite <- Hst. simpl. simpl in IH. rewrite IH. reflexivity.
Qed.

Lemma tokens_trim (s : string) :
  tokens Js.is_space (Js.trim s) = tokens Js.is_space s.
Proof. unfold Js.trim. now rewrite tokens_trimEnd, tokens_trimStart. Qed.

End Tokens.

(** C2, as stated, fails: [processQuery] keeps duplicates ("cardiac" twice)
    and does not split on punctuation ("fever,cough" stays one term). *)
Lemma C2_key_terms_counterexample :
  keyTerms (processQuery "cardiac cardiac") <> spec_key_terms "cardiac cardiac"
  /\ keyTerms (processQuery "fever,cough") <> spec_key_terms "fever,cough".
Proof. split; vm_compute; discriminate. Qed.

(** C2, amended: for every raw query text, the key terms of [processQuery]
    are exactly the tokens of the lowercased, trimmed text split on white
    space only, whose length exceeds 3, in order of occurrence, with
    duplicates kept. *)
Theorem C2_key_terms_whitespace (queryText : string) :
  keyTerms (processQuery queryText) = whitespace_key_terms queryText.
Proof.
  unfold whitespace_key_terms. simpl.
  rewrite tokens_trim, <- split_ws_tokens.
  rewrite list_filter_filter_l; [reflexivity|].
  intros t Ht ->. unfold long_term in Ht. simpl in Ht. lia.
Qed.

(** ** Binary64 cross-check *)

(** On the first 1024 indices the binary64 scores of [retrieveRelevantContent]
    and [findSimilar] compare to 0 and to 1 as the rational scores do, and
    they decrease strictly. *)
Lemma ieee_scores_agree :
  forallb (fun i =>
    Ieee.agree (Ieee.retrieval_score i)
               (score (mockResult "" keyword ∅ i))
    && Ieee.agree (Ieee.similar_score i) (sim_score (mockSimilar i))
    && PrimFloat.ltb (Ieee.retrieval_score (S i)) (Ieee.retrieval_score i)
    && PrimFloat.ltb (Ieee.similar_score (S i)) (Ieee.similar_score i))
    (seq 0 1024) = true.
Proof. vm_compute. reflexivity. Qed.

(** ** The retrieval *)

Section Retrieval.

Variable st : QueryEngine.
Variable processedQuery : string.
Variable strategy : RetrievalStrategy.
Variable filters : gmap string string.

(** Below 2^32 the promise is resolved, with one mock result per index, and
    the searching cell is back to [false]. *)
Lemma retrieve_resolved (topK : Z) :
  (topK < 2 ^ 32)%Z ->
  retrieveRelevantContent st processedQuery strategy filters topK =
  (Resolved (map (mockResult processedQuery strategy filters)
                 (seq 0 (Z.to_nat topK))),
   setIsSearching false st).
Proof.
  intros H. unfold retrieveRelevantContent, array_from_length.
  destruct (Z.leb_spec (2 ^ 32) topK); [lia | reflexivity].
Qed.

(** From 2^32 on it is rejected, and the searching cell stays [true]. *)
Lemma retrieve_rejected (topK : Z) :
  (2 ^ 32 <= topK)%Z ->
  retrieveRelevantContent st processedQuery strategy filters topK =
  (Rejected "RangeError", setIsSearching true st).
Proof.
  intros H. unfold retrieveRelevantContent, array_from_length.
  destruct (Z.leb_spec (2 ^ 32) topK); [reflexivity | lia].
Qed.

End Retrieval.

(** C1, as stated, fails: with [topK = 0] the promise is resolved with the
    empty sequence, not rejected with [InvalidTopK]. *)
Lemma C1_invalid_top_k_counterexample :
  fst (retrieveRelevantContent QueryEngine_init "chest pain" keyword
         (filters QueryEngine_init) 0) <> Rejected "InvalidTopK".
Proof. rewrite retrieve_resolved by reflexivity. discriminate. Qed.

(** C1, amended: for every strategy and every query, retrieval with
    [topK <= 0] is resolved with the empty result sequence; no error is
    returned. *)
Theorem C1_nonpositive_top_k_empty (st : QueryEngine) (processedQuery : string)
    (strategy : RetrievalStrategy) (filters : gmap string string) (topK : Z) :
  (topK <= 0)%Z ->
  retrieveRelevantContent st processedQuery strategy filters topK =
  (Resolved [], setIsSearching false st).
Proof.
  intros H. rewrite retrieve_resolved by lia.
  replace (Z.to_nat topK) with 0%nat by lia. reflexivity.
Qed.

Lemma C1_nonpositive_top_k_empty_witness :
  (0 <= 0)%Z /\
  retrieveRelevantContent QueryEngine_init "chest pain" semantic
    (filters QueryEngine_init) 0 =
  (Resolved [], setIsSearching false QueryEngine_init).
Proof.
  split; [lia | apply C1_nonpositive_top_k_empty; lia].
Defined.

(** ** The degraded flag *)

Lemma string_of_nat_not_degraded (n : nat) : Js.string_of_nat n <> "degraded".
Proof.
  unfold Js.string_of_nat. destruct (Nat.to_uint n); simpl; discriminate.
Qed.

Lemma array_get_degraded (out : list RetrievalResult) :
  array_get out "degraded" = None.
Proof.
  unfold array_get. rewrite decide_False by discriminate.
  destruct (list_find _ _) as [[i [j r]]|] eqn:E; [|reflexivity].
  apply list_find_Some in E. destruct E as (_ & E & _). simpl in E.
  now apply string_of_nat_not_degraded in E.
Qed.

Lemma mockResult_no_degraded (q : string) (s : RetrievalStrategy)
    (f : gmap string string) (i : nat) :
  result_get (mockResult q s f i) "degraded" = None
  /\ metadata (mockResult q s f i) !! "degraded" = None.
Proof.
  split; [reflexivity|]. simpl.
  rewrite !lookup_insert_ne by discriminate. apply lookup_empty.
Qed.

Lemma mock_no_degraded (q : string) (s : RetrievalStrategy)
    (f : gmap string string) (l : list nat) :
  no_degraded_property (map (mockResult q s f) l).
Proof.
  split; [apply array_get_degraded|].
  intros r Hr. apply list_elem_of_In, in_map_iff in Hr.
  destruct Hr as (i & <- & _). apply mockResult_no_degraded.
Qed.

Lemma no_degraded_not_carried (out : list RetrievalResult) :
  no_degraded_property out -> ~ carries_degraded out.
Proof.
  intros [Ha Hr] [H | (r & Hin & [H | H])].
  - congruence.
  - destruct (Hr r Hin) as [H1 _]. congruence.
  - destruct (Hr r Hin) as [_ H2]. congruence.
Qed.

Lemma mock_scores_strategy (q : string) (s1 s2 : RetrievalStrategy)
    (f : gmap string string) (l : list nat) :
  map score (map (mockResult q s1 f) l) = map score (map (mockResult q s2 f) l).
Proof. rewrite !map_map. reflexivity. Qed.

(** C3, as stated, fails: a semantic retrieval for a query without a
    vector succeeds, but nothing in its result is a degraded flag. *)
Lemma C3_degraded_flag_counterexample :
  queryVector (processQuery "chest pain") = [] /\
  ~ exists out,
      fst (retrieveRelevantContent QueryEngine_init
             (processedQuery (processQuery "chest pain")) semantic
             (filters QueryEngine_init) 5) = Resolved out
      /\ carries_degraded out.
Proof.
  split; [reflexivity|]. intros (out & E & H).
  rewrite retrieve_resolved in E by reflexivity. simpl in E.
  injection E as <-. revert H. apply no_degraded_not_carried.
  apply (mock_no_degraded _ _ _ [0; 1; 2; 3; 4]%nat).
Qed.

(** C3, amended: the query never has a vector, and for [topK] below 2^32 a
    retrieval with strategy semantic still succeeds, with the scores that
    strategy keyword gives; no embedding failure is surfaced as an error.
    The result carries no degraded flag: nothing is readable under that
    name on the sequence, on its items or in their metadata. *)
Theorem C3_semantic_without_vector (st : QueryEngine) (queryText : string)
    (filters : gmap string string) (topK : Z) :
  (topK < 2 ^ 32)%Z ->
  queryVector (processQuery queryText) = [] /\
  exists out out_kw,
    fst (retrieveRelevantContent st (processedQuery (processQuery queryText))
           semantic filters topK) = Resolved out
    /\ fst (retrieveRelevantContent st (processedQuery (processQuery queryText))
              keyword filters topK) = Resolved out_kw
    /\ map score out = map score out_kw
    /\ no_degraded_property out.
Proof.
  intros H. split; [reflexivity|].
  rewrite !retrieve_resolved by exact H. simpl.
  eexists _, _. split; [reflexivity|]. split; [reflexivity|].
  split; [apply mock_scores_strategy | apply mock_no_degraded].
Qed.

Lemma C3_semantic_without_vector_witness :
  (5 < 2 ^ 32)%Z /\
  (queryVector (processQuery "chest pain") = [] /\
   exists out out_kw,
    fst (retrieveRelevantContent QueryEngine_init
           (processedQuery (processQuery "chest pain"))
           semantic ∅ 5) = Resolved out
    /\ fst (retrieveRelevantContent QueryEngine_init
              (processedQuery (processQuery "chest pain"))
              keyword ∅ 5) = Resolved out_kw
    /\ map score out = map score out_kw
    /\ no_degraded_property out).
Proof.
  split; [reflexivity | apply C3_semantic_without_vector; reflexivity].
Defined.

(** ** The scores *)

Lemma retrieval_score_unit (q : string) (s : RetrievalStrategy)
    (f : gmap string string) (i : nat) :
  (i < 7)%nat -> in_unit_interval (score (mockResult q s f i)).
Proof.
  intros H. unfold in_unit_interval, Qle. simpl. lia.
Qed.

Lemma similar_score_unit (i : nat) :
  (i < 11)%nat -> in_unit_interval (sim_score (mockSimilar i)).
Proof.
  intros H. unfold in_unit_interval, Qle. simpl. lia.
Qed.

Lemma Forall_map_seq {A : Type} (P : A -> Prop) (f : nat -> A) (n : nat) :
  (forall i, (i < n)%nat -> P (f i)) -> Forall P (map f (seq 0 n)).
Proof.
  intros H. apply List.Forall_forall. intros x Hx.
  apply in_map_iff in Hx. destruct Hx as (i & <- & Hi).
  apply in_seq in Hi. apply H. lia.
Qed.

(** C4, as stated, fails: the twelfth item of a similarity search and the
    eighth item of a retrieval have a negative score. *)
Lemma C4_scores_counterexample :
  (exists out item,
     findSimilar "fever" 12 = Resolved out /\ item ∈ out
     /\ ~ in_unit_interval (sim_score item))
  /\
  (exists out r,
     fst (retrieveRelevantContent QueryEngine_init "fever" hybrid
            (filters QueryEngine_init) 8) = Resolved out /\ r ∈ out
     /\ ~ in_unit_interval (score r)).
Proof.
  split.
  - exists (map mockSimilar (seq 0 12)), (mockSimilar 11).
    split; [reflexivity|]. split.
    + apply list_elem_of_lookup. exists 11%nat. reflexivity.
    + intros [H _]. revert H. unfold Qle. simpl. lia.
  - exists (map (mockResult "fever" hybrid (filters QueryEngine_init)) (seq 0 8)),
           (mockResult "fever" hybrid (filters QueryEngine_init) 7).
    split; [reflexivity|]. split.
    + apply list_elem_of_lookup. exists 7%nat. reflexivity.
    + intros [H _]. revert H. unfold Qle. simpl. lia.
Qed.

(** C4, amended: for every query text, every score returned by similarity
    search lies in [0,1] when [topK <= 11], and every score in the
    retrieval result sequence lies in [0,1] when [topK <= 7]. *)
Theorem C4_scores_in_unit_interval (st : QueryEngine) (text : string)
    (strategy : RetrievalStrategy) (filters : gmap string string)
    (topK_similar topK_retrieval : Z) :
  (topK_similar <= 11)%Z ->
  (topK_retrieval <= 7)%Z ->
  (exists out,
     findSimilar text topK_similar = Resolved out
     /\ Forall (fun item => in_unit_interval (sim_score item)) out)
  /\
  (exists out,
     fst (retrieveRelevantContent st text strategy filters topK_retrieval)
     = Resolved out
     /\ Forall (fun r => in_unit_interval (score r)) out).
Proof.
  intros Hs Hr. split.
  - unfold findSimilar, array_from_length.
    destruct (Z.leb_spec (2 ^ 32) topK_similar); [lia|].
    eexists. split; [reflexivity|].
    apply Forall_map_seq. intros i Hi. apply similar_score_unit. lia.
  - rewrite retrieve_resolved by lia. simpl.
    eexists. split; [reflexivity|].
    apply Forall_map_seq. intros i Hi. apply retrieval_score_unit. lia.
Qed.

Lemma C4_scores_in_unit_interval_witness :
  (11 <= 11)%Z /\ (7 <= 7)%Z /\
  ((exists out,
      findSimilar "fever" 11 = Resolved out
      /\ Forall (fun item => in_unit_interval (sim_score item)) out)
   /\
   (exists out,
      fst (retrieveRelevantContent QueryEngine_init "fever" hybrid ∅ 7)
      = Resolved out
      /\ Forall (fun r => in_unit_interval (score r)) out)).
Proof.
  split; [lia|]. split; [lia|].
  apply C4_scores_in_unit_interval; lia.
Defined.

(** ** Empty key terms *)

(** C5, as stated, fails: "cat" has no key term, and the keyword retrieval
    that [handleSearch] runs for it returns five results. *)
Lemma C5_empty_key_terms_counterexample :
  keyTerms (processQuery "cat") = [] /\
  fst (retrieveRelevantContent QueryEngine_init
         (processedQuery (processQuery "cat")) keyword
         (filters QueryEngine_init) default_topK) <> Resolved [].
Proof.
  split; [reflexivity|].
  rewrite retrieve_resolved by reflexivity. discriminate.
Qed.

(** C5, amended: for every query whose key terms are empty and every
    [topK] below 2^32, keyword-strategy retrieval raises no error and
    returns as many results as [topK] asks for (none when [topK <= 0]);
    the key terms have no part in it. *)
Theorem C5_empty_key_terms_no_error (st : QueryEngine) (queryText : string)
    (filters : gmap string string) (topK : Z) :
  keyTerms (processQuery queryText) = [] ->
  (topK < 2 ^ 32)%Z ->
  exists out,
    fst (retrieveRelevantContent st (processedQuery (processQuery queryText))
           keyword filters topK) = Resolved out
    /\ length out = Z.to_nat topK.
Proof.
  intros _ H. rewrite retrieve_resolved by exact H. simpl.
  eexists. split; [reflexivity|].
  now rewrite length_map, length_seq.
Qed.

Lemma C5_empty_key_terms_no_error_witness :
  keyTerms (processQuery "cat") = [] /\ (5 < 2 ^ 32)%Z /\
  exists out,
    fst (retrieveRelevantContent QueryEngine_init
           (processedQuery (processQuery "cat")) keyword ∅ 5) = Resolved out
    /\ length out = Z.to_nat 5.
Proof.
  split; [reflexivity|]. split; [reflexivity|].
  apply C5_empty_key_terms_no_error; reflexivity.
Defined.

(** ** The order of the results *)

Lemma mock_ranked_before (q : string) (s : RetrievalStrategy)
    (f : gmap string string) (i j : nat) :
  (i < j)%nat -> ranked_before (mockResult q s f i) (mockResult q s f j).
Proof.
  intros H. left. unfold Qlt. simpl. lia.
Qed.

Lemma mock_sorted (q : string) (s : RetrievalStrategy)
    (f : gmap string string) (start n : nat) :
  StronglySorted ranked_before (map (mockResult q s f) (seq start n)).
Proof.
  revert start. induction n as [|n IH]; intros start; simpl.
  - constructor.
  - constructor; [apply IH|].
    apply List.Forall_forall. intros x Hx.
    apply in_map_iff in Hx. destruct Hx as (j & <- & Hj).
    apply in_seq in Hj. apply mock_ranked_before. lia.
Qed.

Lemma mock_scored_above (q : string) (s : RetrievalStrategy)
    (f : gmap string string) (start n : nat) :
  StronglySorted scored_above (map (mockResult q s f) (seq start n)).
Proof.
  revert start. induction n as [|n IH]; intros start; simpl.
  - constructor.
  - constructor; [apply IH|].
    apply List.Forall_forall. intros x Hx.
    apply in_map_iff in Hx. destruct Hx as (j & <- & Hj).
    apply in_seq in Hj. unfold scored_above, Qlt. simpl. lia.
Qed.

(** C6, as stated, fails for some [k]: with [k = -1] the result is the
    empty sequence, whose 0 items are not at most -1, and with [k = 2^32]
    the retrieval is rejected and there is no sequence at all. *)
Lemma C6_every_k_counterexample :
  (exists out,
     fst (retrieveRelevantContent QueryEngine_init "chest pain" hybrid
            (filters QueryEngine_init) (-1)) = Resolved out
     /\ ~ (Z.of_nat (length out) <= -1)%Z)
  /\ fst (retrieveRelevantContent QueryEngine_init "chest pain" hybrid
            (filters QueryEngine_init) (2 ^ 32)) = Rejected "RangeError".
Proof.
  split.
  - exists []. split; [reflexivity | simpl; lia].
  - now rewrite retrieve_rejected.
Qed.

(** C6, amended: for every [k] with [0 <= k < 2^32], the result sequence
    for [topK = k] (the code ranks no separate candidate list) contains
    exactly [k] items, hence at most [k], and is sorted in descending
    order of score, ties broken by id ascending; the scores decrease
    strictly, so no two items tie and the tie-break never applies. *)
Theorem C6_result_sorted_in_range (st : QueryEngine) (processedQuery : string)
    (strategy : RetrievalStrategy) (filters : gmap string string) (k : Z) :
  (0 <= k < 2 ^ 32)%Z ->
  exists out,
    fst (retrieveRelevantContent st processedQuery strategy filters k)
    = Resolved out
    /\ length out = Z.to_nat k
    /\ (Z.of_nat (length out) <= k)%Z
    /\ StronglySorted ranked_before out
    /\ StronglySorted scored_above out.
Proof.
  intros [H0 H]. rewrite retrieve_resolved by exact H. simpl.
  eexists. split; [reflexivity|].
  rewrite length_map, length_seq.
  split; [reflexivity|]. split; [lia|].
  split; [apply mock_sorted | apply mock_scored_above].
Qed.

Lemma C6_result_sorted_in_range_witness :
  (0 <= 5 < 2 ^ 32)%Z /\
  exists out,
    fst (retrieveRelevantContent QueryEngine_init "chest pain" hybrid ∅ 5)
    = Resolved out
    /\ length out = Z.to_nat 5
    /\ (Z.of_nat (length out) <= 5)%Z
    /\ StronglySorted ranked_before out
    /\ StronglySorted scored_above out.
Proof.
  split; [lia | apply C6_result_sorted_in_range; lia].
Defined.

(** ** Repeated searches *)

Lemma handleSearch_idempotent (st : QueryEngine) :
  handleSearch (handleSearch st) = handleSearch st.
Proof.
  unfold handleSearch at 2 3.
  destruct (decide (Js.trim (query st) = "")) as [E|E].
  - unfold handleSearch. now rewrite decide_True.
  - rewrite retrieve_resolved by reflexivity.
    unfold handleSearch. cbn [query setResults setIsSearching].
    rewrite decide_False by exact E.
    rewrite retrieve_resolved by reflexivity. reflexivity.
Qed.

(** C7: two retrievals with the same processed query text, strategy,
    filters and [topK] are settled alike, whatever the cells of the
    component are when each is called; and searching a second time leaves
    the results (and every other cell) as the first search left them. *)
Theorem C7_search_deterministic (st1 st2 : QueryEngine)
    (processedQuery : string) (strategy : RetrievalStrategy)
    (filters : gmap string string) (topK : Z) :
  fst (retrieveRelevantContent st1 processedQuery strategy filters topK)
  = fst (retrieveRelevantContent st2 processedQuery strategy filters topK)
  /\ fst (retrieveRelevantContent
            (snd (retrieveRelevantContent st1 processedQuery strategy
                    filters topK))
            processedQuery strategy filters topK)
     = fst (retrieveRelevantContent st1 processedQuery strategy filters topK)
  /\ results (handleSearch (handleSearch st1)) = results (handleSearch st1).
Proof.
  split; [|split].
  - unfold retrieveRelevantContent.
    now destruct (array_from_length topK _).
  - unfold retrieveRelevantContent.
    now destruct (array_from_length topK _).
  - now rewrite handleSearch_idempotent.
Qed.

(** ** The embedding *)

Lemma random_array_length (n : nat) (g : Random) :
  length (fst (random_array n g)) = n.
Proof.
  revert g. induction n as [|n IH]; intros g; [reflexivity|].
  cbn [random_array Math_random].
  specialize (IH {| draws := draws g; drawn := S (drawn g) |}).
  destruct (random_array n _) as [xs g2]. simpl in *. now rewrite IH.
Qed.

(** C8: for every input text, and whatever [Math.random] returns, the
    promise of [embedText] is resolved with a vector of exactly 1536
    numbers. *)
Theorem C8_embedding_dimension (g : Random) (text : string) :
  exists v g',
    embedText g text = (Resolved v, g') /\ length v = 1536%nat.
Proof.
  unfold embedText.
  pose proof (random_array_length 1536 g) as H.
  destruct (random_array 1536 g) as [v g']. simpl in H.
  exists v, g'. split; [reflexivity | exact H].
Qed.

(** ** The transformed question *)

#[local] Arguments String.append !s1 s2 : simpl nomatch.

Section Strings.

Lemma append_assoc (a b c : string) : (a ++ b) ++ c = a ++ b ++ c.
Proof. induction a as [|x a IH]; simpl; [reflexivity | now rewrite IH]. Qed.

Lemma append_nil_r (a : string) : a ++ "" = a.
Proof. induction a as [|x a IH]; simpl; [reflexivity | now rewrite IH]. Qed.

Lemma prefix_app (t b : string) : String.prefix t (t ++ b) = true.
Proof.
  induction t as [|x t IH]; simpl; [now destruct b|].
  destruct (ascii_dec x x); [exact IH | congruence].
Qed.

Lemma prefix_split (t s : string) :
  String.prefix t s = true -> exists b, s = t ++ b.
Proof.
  revert s. induction t as [|x t IH]; intros s H.
  - exists s. reflexivity.
  - destruct s as [|y s]; simpl in H; [discriminate|].
    destruct (ascii_dec x y) as [->|]; [|discriminate].
    destruct (IH s H) as [b ->]. now exists b.
Qed.

Lemma includes_unfold (s t : string) :
  Js.includes s t =
  String.prefix t s ||
  match s with
  | EmptyString => false
  | String _ s' => Js.includes s' t
  end.
Proof. destruct s; reflexivity. Qed.

(** [includes] is what it should be: [t] occurs in [s] between two pieces. *)
Lemma includes_spec (s t : string) :
  Js.includes s t = true <-> exists a b, s = a ++ t ++ b.
Proof.
  split.
  - induction s as [|c s IH]; rewrite includes_unfold; intros H;
      apply orb_true_iff in H; destruct H as [H | H].
    + apply prefix_split in H. destruct H as [b ->]. now exists "", b.
    + discriminate.
    + apply prefix_split in H. destruct H as [b ->]. now exists "", b.
    + destruct (IH H) as (a & b & ->). now exists (String c a), b.
  - intros (a & b & ->). induction a as [|c a IH]; rewrite includes_unfold.
    + simpl. now rewrite prefix_app.
    + simpl. rewrite IH. apply orb_true_r.
Qed.

Lemma includes_intro (s a t b : string) :
  s = a ++ t ++ b -> Js.includes s t = true.
Proof. intros ->. apply includes_spec. eauto. Qed.

Lemma trimEnd_head (c : ascii) (s : string) :
  Js.is_space c = false -> Js.trimEnd (String c s) <> "".
Proof.
  intros H. simpl. destruct (Js.trimEnd s); [now rewrite H | discriminate].
Qed.

Lemma trimEnd_app_blank (s t : string) :
  Js.trimEnd t = "" -> Js.trimEnd (s ++ t) = Js.trimEnd s.
Proof.
  intros H. induction s as [|c s IH]; simpl; [exact H | now rewrite IH].
Qed.

Lemma trimEnd_app (s t : string) :
  Js.trimEnd t <> "" -> Js.trimEnd (s ++ t) = s ++ Js.trimEnd t.
Proof.
  intros H. induction s as [|c s IH]; simpl; [reflexivity|].
  rewrite IH. destruct (s ++ Js.trimEnd t) eqn:E; [|reflexivity].
  destruct s; simpl in E; [contradiction | discriminate].
Qed.

Lemma concat_member (sep x : string) (l : list string) :
  In x l -> exists a b, String.concat sep l = a ++ x ++ b.
Proof.
  induction l as [|y l IH]; intros H; [contradiction|].
  destruct H as [-> | H].
  - destruct l as [|z l].
    + exists "", "". simpl. now rewrite append_nil_r.
    + exists "", (sep ++ String.concat sep (z :: l)). reflexivity.
  - destruct (IH H) as (a & b & E).
    destruct l as [|z l]; [contradiction|].
    exists (y ++ sep ++ a), b.
    change (String.concat sep (y :: z :: l))
      with (y ++ sep ++ String.concat sep (z :: l)).
    rewrite E. now rewrite !append_assoc.
Qed.

End Strings.

Section Transform.

Variable q : QuizQuestion.

Lemma trimStart_template :
  Js.trimStart (content_template q) = content_body q ++ content_tail q.
Proof.
  unfold content_body, content_tail. rewrite !append_assoc. reflexivity.
Qed.

Lemma trimEnd_tail :
  Js.trimEnd (content_tail q) <> ""
  /\ exists a, Js.trimEnd (content_tail q) = a ++ Js.trimEnd (answer_details q).
Proof.
  split; [now apply trimEnd_head|].
  unfold content_tail.
  destruct (string_dec (Js.trimEnd (answer_details q)) "") as [E|E].
  - rewrite E. eexists. symmetry. apply append_nil_r.
  - exists "Answer Details: ". rewrite trimEnd_app.
    + rewrite trimEnd_app_blank by reflexivity. reflexivity.
    + now rewrite trimEnd_app_blank by reflexivity.
Qed.

(** The content is the body followed by the trimmed tail. *)
Lemma content_shape :
  v_content (transformQuestionData q) =
  content_body q ++ Js.trimEnd (content_tail q).
Proof.
  cbn [transformQuestionData v_content]. unfold Js.trim.
  rewrite trimStart_template. apply trimEnd_app, trimEnd_tail.
Qed.

Lemma content_includes_question :
  Js.includes (v_content (transformQuestionData q)) (question q) = true.
Proof.
  rewrite content_shape.
  eapply (includes_intro _ "Question: "). unfold content_body.
  rewrite !append_assoc. reflexivity.
Qed.

Lemma content_includes_correct_answer :
  Js.includes (v_content (transformQuestionData q)) (correct_answer q) = true.
Proof.
  rewrite content_shape.
  eapply (includes_intro _
    ("Question: " ++ question q ++ nl ++ "      Options:" ++ nl ++ "      "
     ++ optionsText q ++ nl ++ "      Correct Answer: ")).
  unfold content_body. rewrite !append_assoc. reflexivity.
Qed.

Lemma content_includes_option (k v : string) :
  In (k, v) (options q) ->
  Js.includes (v_content (transformQuestionData q)) (k ++ ": " ++ v) = true.
Proof.
  intros H.
  assert (In (k ++ ": " ++ v)
             (map (fun kv => fst kv ++ ": " ++ snd kv) (options q))) as Hin
    by (apply in_map_iff; now exists (k, v)).
  apply (concat_member nl) in Hin. destruct Hin as (a & b & E).
  rewrite content_shape.
  eapply (includes_intro _
    ("Question: " ++ question q ++ nl ++ "      Options:" ++ nl ++ "      "
     ++ a)).
  unfold content_body, optionsText. rewrite E.
  rewrite !append_assoc. reflexivity.
Qed.

Lemma content_includes_details :
  Js.includes (v_content (transformQuestionData q))
              (Js.trimEnd (answer_details q)) = true.
Proof.
  rewrite content_shape.
  destruct trimEnd_tail as [_ [a ->]].
  eapply (includes_intro _ (content_body q ++ a) _ "").
  now rewrite append_nil_r, append_assoc.
Qed.

End Transform.

Lemma includes_trans (s t u : string) :
  Js.includes s t = true -> Js.includes t u = true -> Js.includes s u = true.
Proof.
  rewrite !includes_spec. intros (a & b & ->) (c & d & ->).
  exists (a ++ c), (d ++ b). now rewrite !append_assoc.
Qed.

(** C9, as stated, fails: [trim] removes the white space that ends the
    answer details, so the content does not contain them as they are. *)
Lemma C9_transform_counterexample :
  Js.includes (v_content (transformQuestionData aorta_question))
              (answer_details aorta_question) = false.
Proof. vm_compute. reflexivity. Qed.

(** C9, amended: for every quiz question [q], [transformQuestionData q]
    has the id of [q] and the metadata fields bookname, chapter,
    chapter_index, question_number and correct_answer of [q]; its content
    contains the question, every option (as "key: value", hence its key and
    its value), the correct answer, and the answer details without the
    white space they end in. *)
Theorem C9_transform_question (q : QuizQuestion) :
  let r := transformQuestionData q in
  v_id r = q_id q
  /\ m_bookname (v_metadata r) = bookname q
  /\ m_chapter (v_metadata r) = chapter q
  /\ m_chapter_index (v_metadata r) = chapter_index q
  /\ m_question_number (v_metadata r) = question_number q
  /\ m_correct_answer (v_metadata r) = correct_answer q
  /\ Js.includes (v_content r) (question q) = true
  /\ (forall k v, In (k, v) (options q) ->
        Js.includes (v_content r) (k ++ ": " ++ v) = true
        /\ Js.includes (v_content r) k = true
        /\ Js.includes (v_content r) v = true)
  /\ Js.includes (v_content r) (correct_answer q) = true
  /\ Js.includes (v_content r) (Js.trimEnd (answer_details q)) = true.
Proof.
  intros r. subst r.
  repeat (split; [reflexivity|]).
  split; [apply content_includes_question|].
  split; [|split; [apply content_includes_correct_answer
                  | apply content_includes_details]].
  intros k v H. pose proof (content_includes_option q k v H) as Hkv.
  split; [exact Hkv|]. split.
  - apply (includes_trans _ _ _ Hkv), (includes_intro _ "" k (": " ++ v)).
    reflexivity.
  - apply (includes_trans _ _ _ Hkv), (includes_intro _ (k ++ ": ") v "").
    now rewrite append_nil_r, append_assoc.
Qed.

(** ** The configuration list *)

Section Configs.

Lemma read_spread (o : ConfigObject) (u : ConfigUpdate) (k : ConfigKey) :
  names u k = false -> read (spread o u) k = read o k.
Proof.
  destruct u as [un us uk ue ud].
  destruct k; simpl; intros H; apply bool_decide_eq_false in H;
    match goal with
    | H : ~ is_Some ?x |- _ => destruct x; [exfalso; apply H; eauto | reflexivity]
    end.
Qed.

Lemma element_array_set_other (a : list (option ConfigObject)) (index j : Z)
    (x : ConfigObject) :
  j <> index -> element (array_set a index x) j = element a j.
Proof.
  intros Hne. unfold array_set.
  destruct ((0 <=? index)%Z && (index <? 2 ^ 32 - 1)%Z) eqn:Hidx; [|reflexivity].
  apply andb_true_iff in Hidx. destruct Hidx as [H0 _].
  apply Z.leb_le in H0. unfold element.
  destruct (Z.ltb_spec j 0) as [|Hj]; [reflexivity|].
  assert (Z.to_nat j <> Z.to_nat index) as Hn by lia.
  destruct (decide (Z.to_nat index < length a)%nat) as [Hlt|Hge].
  - now rewrite list_lookup_insert_ne by congruence.
  - destruct (decide (Z.to_nat j < length a)%nat) as [Hjl|Hjl].
    + now rewrite lookup_app_l by exact Hjl.
    + rewrite lookup_app_r by lia.
      rewrite (lookup_ge_None_2 a) by lia.
      destruct (decide (Z.to_nat j < Z.to_nat index)%nat).
      * rewrite lookup_app_l by (rewrite length_replicate; lia).
        rewrite lookup_replicate_2 by lia. reflexivity.
      * rewrite lookup_app_r by (rewrite length_replicate; lia).
        rewrite length_replicate.
        rewrite lookup_ge_None_2 by (simpl; lia). reflexivity.
Qed.

Lemma element_array_set_same (a : list (option ConfigObject)) (index : Z)
    (x : ConfigObject) :
  (0 <= index < 2 ^ 32 - 1)%Z -> element (array_set a index x) index = Some x.
Proof.
  intros [H0 H1]. unfold array_set, element.
  replace (0 <=? index)%Z with true by (symmetry; now apply Z.leb_le).
  replace (index <? 2 ^ 32 - 1)%Z with true by (symmetry; now apply Z.ltb_lt).
  replace (index <? 0)%Z with false by (symmetry; apply Z.ltb_ge; lia).
  simpl. destruct (decide (Z.to_nat index < length a)%nat) as [Hlt|Hge].
  - now rewrite list_lookup_insert_eq by exact Hlt.
  - rewrite lookup_app_r by lia.
    rewrite lookup_app_r by (rewrite length_replicate; lia).
    rewrite length_replicate.
    now replace (Z.to_nat index - length a - (Z.to_nat index - length a))%nat
      with 0%nat by lia.
Qed.

End Configs.

(** C10: for every configuration list, every array index and every partial
    update, [updateConfig] leaves the element at every other array index
    as it was, and in the element at the index every key that the update
    does not name reads as before; the other cells of the component are
    untouched. *)
Theorem C10_updateConfig_frame (st : EnvironmentSetup) (index : Z)
    (updates : ConfigUpdate) :
  array_index index ->
  let st' := updateConfig st index updates in
  (forall j, array_index j -> j <> index ->
     element (configs st') j = element (configs st) j)
  /\ (forall k, names updates k = false ->
        read_at (configs st') index k = read_at (configs st) index k)
  /\ activeTab st' = activeTab st
  /\ isSaving st' = isSaving st
  /\ saveSuccess st' = saveSuccess st.
Proof.
  intros Hi st'. subst st'. unfold updateConfig. cbn [configs setConfigs].
  split; [|split; [|repeat split]].
  - intros j _ Hj. now apply element_array_set_other.
  - intros k Hk. unfold read_at.
    rewrite element_array_set_same by exact Hi. simpl.
    rewrite read_spread by exact Hk.
    destruct (element (configs st) index); [reflexivity | now destruct k].
Qed.

Lemma C10_updateConfig_frame_witness :
  array_index 0 /\
  let st' :=
    updateConfig (one_service "sk-or-v1") 0 (status_update testing) in
  (forall j, array_index j -> j <> 0%Z ->
     element (configs st') j = element (configs (one_service "sk-or-v1")) j)
  /\ (forall k, names (status_update testing) k = false ->
        read_at (configs st') 0 k
        = read_at (configs (one_service "sk-or-v1")) 0 k)
  /\ activeTab st' = activeTab (one_service "sk-or-v1")
  /\ isSaving st' = isSaving (one_service "sk-or-v1")
  /\ saveSuccess st' = saveSuccess (one_service "sk-or-v1").
Proof.
  assert (array_index 0) as Hi by (unfold array_index; lia).
  split; [exact Hi|].
  exact (C10_updateConfig_frame (one_service "sk-or-v1") 0
           (status_update testing) Hi).
Defined.

(** * Further properties of the components *)

(** ** Characters and trimming *)

Section Characters.

Lemma lower_char_not_upper (c : ascii) : Js.is_upper (Js.lower_char c) = false.
Proof. destruct c as [[] [] [] [] [] [] [] []]; reflexivity. Qed.

Lemma lower_char_space (c : ascii) :
  Js.is_space (Js.lower_char c) = Js.is_space c.
Proof. destruct c as [[] [] [] [] [] [] [] []]; reflexivity. Qed.

Lemma lower_char_idem (c : ascii) :
  Js.lower_char (Js.lower_char c) = Js.lower_char c.
Proof.
  unfold Js.lower_char at 1. now rewrite lower_char_not_upper.
Qed.

Lemma toLowerCase_idem (s : string) :
  Js.toLowerCase (Js.toLowerCase s) = Js.toLowerCase s.
Proof.
  induction s as [|c s IH]; simpl; [reflexivity|].
  now rewrite lower_char_idem, IH.
Qed.

Lemma toLowerCase_not_upper (s : string) :
  string_forall not_upper (Js.toLowerCase s) = true.
Proof.
  induction s as [|c s IH]; simpl; [reflexivity|].
  unfold not_upper at 1. now rewrite lower_char_not_upper, IH.
Qed.

Lemma toLowerCase_trimStart (s : string) :
  Js.trimStart (Js.toLowerCase s) = Js.toLowerCase (Js.trimStart s).
Proof.
  induction s as [|c s IH]; simpl; [reflexivity|].
  rewrite lower_char_space. now destruct (Js.is_space c).
Qed.

Lemma toLowerCase_trimEnd (s : string) :
  Js.trimEnd (Js.toLowerCase s) = Js.toLowerCase (Js.trimEnd s).
Proof.
  induction s as [|c s IH]; simpl; [reflexivity|].
  rewrite IH, lower_char_space.
  destruct (Js.trimEnd s); simpl; [now destruct (Js.is_space c) | reflexivity].
Qed.

Lemma toLowerCase_trim (s : string) :
  Js.trim (Js.toLowerCase s) = Js.toLowerCase (Js.trim s).
Proof.
  unfold Js.trim. now rewrite toLowerCase_trimStart, toLowerCase_trimEnd.
Qed.

Lemma toLowerCase_empty (s : string) :
  Js.toLowerCase s = "" <-> s = "".
Proof. destruct s; simpl; split; congruence. Qed.

Lemma trimStart_no_space (s : string) :
  Js.starts_with_space (Js.trimStart s) = false.
Proof.
  induction s as [|c s IH]; simpl; [reflexivity|].
  destruct (Js.is_space c) eqn:E; [exact IH | simpl; exact E].
Qed.

Lemma trimStart_id (s : string) :
  Js.starts_with_space s = false -> Js.trimStart s = s.
Proof. destruct s as [|c s]; simpl; [reflexivity | now intros ->]. Qed.

Lemma trimEnd_no_space (s : string) :
  Js.starts_with_space s = false ->
  Js.starts_with_space (Js.trimEnd s) = false.
Proof.
  destruct s as [|c s]; simpl; [reflexivity|]. intros H.
  destruct (Js.trimEnd s); simpl; now rewrite ?H.
Qed.

Lemma trimEnd_idem (s : string) : Js.trimEnd (Js.trimEnd s) = Js.trimEnd s.
Proof.
  induction s as [|c s IH]; simpl; [reflexivity|].
  destruct (Js.trimEnd s) as [|d t] eqn:E.
  - destruct (Js.is_space c) eqn:Hc; simpl; now rewrite ?Hc.
  - change (Js.trimEnd (String c (String d t)))
      with (match Js.trimEnd (String d t) with
            | EmptyString =>
                if Js.is_space c then EmptyString else String c EmptyString
            | u => String c u
            end).
    now rewrite IH.
Qed.

Lemma trim_idem (s : string) : Js.trim (Js.trim s) = Js.trim s.
Proof.
  unfold Js.trim.
  rewrite (trimStart_id (Js.trimEnd (Js.trimStart s)))
    by apply trimEnd_no_space, trimStart_no_space.
  apply trimEnd_idem.
Qed.

Lemma string_forall_app (p : ascii -> bool) (a b : string) :
  string_forall p (a ++ b) = string_forall p a && string_forall p b.
Proof.
  induction a as [|c a IH]; simpl; [reflexivity|].
  now rewrite IH, andb_assoc.
Qed.

End Characters.

(** ** The key terms *)

Section KeyTerms.

Variable sep : ascii -> bool.

(** When [s] begins with a token character, its first token is a prefix. *)
Lemma tokens_first (s : string) :
  starts_token sep s = true ->
  exists h ts b,
    tokens sep s = h :: ts /\ s = h ++ b
    /\ h <> "" /\ string_forall (fun c => negb (sep c)) h = true.
Proof.
  induction s as [|c s IH]; simpl; [discriminate|].
  intros Hc. apply negb_true_iff in Hc. rewrite Hc.
  destruct (starts_token sep s) eqn:Hs.
  - destruct (IH eq_refl) as (h & ts & b & E & -> & _ & Hh).
    rewrite E. exists (String c h), ts, b. simpl.
    repeat split; [discriminate|]. now rewrite Hc, Hh.
  - exists (String c ""), (tokens sep s), s. simpl.
    repeat split; [discriminate|]. now rewrite Hc.
Qed.

(** A token is not empty, holds no separator and occurs in the string. *)
Lemma tokens_member (s t : string) :
  In t (tokens sep s) ->
  t <> "" /\ string_forall (fun c => negb (sep c)) t = true /\ exists a b, s = a ++ t ++ b.
Proof.
  revert t. induction s as [|c s IH]; simpl; intros t Ht; [contradiction|].
  assert (forall a b, s = a ++ t ++ b ->
            exists a' b', String c s = a' ++ t ++ b') as Hext
    by (intros a b ->; now exists (String c a), b).
  destruct (sep c) eqn:Hc.
  - destruct (IH t Ht) as (H1 & H2 & a & b & E). eauto.
  - destruct (starts_token sep s) eqn:Hs.
    + destruct (tokens_first s Hs) as (h & ts & b & E & Es & _ & Hh).
      rewrite E in *. simpl in Ht. destruct Ht as [<- | Ht].
      * repeat split; [discriminate | |].
        -- simpl. now rewrite Hc, Hh.
        -- exists "", b. simpl. now rewrite Es.
      * destruct (IH t (or_intror Ht)) as (H1 & H2 & a & b' & E'). eauto.
    + destruct Ht as [<- | Ht].
      * repeat split; [discriminate | |].
        -- simpl. now rewrite Hc.
        -- now exists "", s.
      * destruct (IH t Ht) as (H1 & H2 & a & b & E). eauto.
Qed.

End KeyTerms.

Lemma keyTerms_tokens (queryText : string) :
  keyTerms (processQuery queryText) =
  filter long_term (tokens Js.is_space (Js.toLowerCase queryText)).
Proof.
  simpl. rewrite <- split_ws_tokens.
  rewrite list_filter_filter_l; [reflexivity|].
  intros t Ht ->. unfold long_term in Ht. simpl in Ht. lia.
Qed.

(** X1: every key term of a query is longer than three characters, holds
    no white space and no upper-case letter, and occurs in the processed
    query. *)
Theorem keyTerms_wellformed (queryText term : string) :
  In term (keyTerms (processQuery queryText)) ->
  3 < String.length term
  /\ string_forall not_space term = true
  /\ string_forall not_upper term = true
  /\ Js.includes (processedQuery (processQuery queryText)) term = true.
Proof.
  rewrite keyTerms_tokens. intros H.
  apply list_elem_of_In, list_elem_of_filter in H. destruct H as [Hlong H].
  apply list_elem_of_In in H.
  pose proof H as H'. rewrite <- tokens_trim in H'.
  apply tokens_member in H. destruct H as (_ & Hsp & a & b & E).
  apply tokens_member in H'. destruct H' as (_ & _ & a' & b' & E').
  split; [exact Hlong|]. split; [exact Hsp|]. split.
  - pose proof (toLowerCase_not_upper queryText) as Hl.
    rewrite E, !string_forall_app in Hl.
    apply andb_true_iff in Hl. destruct Hl as [_ Hl].
    apply andb_true_iff in Hl. tauto.
  - simpl. apply includes_spec. eauto.
Qed.

Lemma keyTerms_wellformed_witness :
  In "cardiac" (keyTerms (processQuery "Cardiac arrest")) /\
  (3 < String.length "cardiac"
   /\ string_forall not_space "cardiac" = true
   /\ string_forall not_upper "cardiac" = true
   /\ Js.includes (processedQuery (processQuery "Cardiac arrest")) "cardiac"
      = true).
Proof.
  assert (In "cardiac" (keyTerms (processQuery "Cardiac arrest"))) as H
    by (vm_compute; left; reflexivity).
  split; [exact H | exact (keyTerms_wellformed _ _ H)].
Defined.

(** X2: a query is blank, which is when [handleSearch] returns at once,
    exactly when its processed query is empty; and a blank query has no
    key terms. *)
Theorem blank_query_processed (queryText : string) :
  (Js.trim queryText = "" <-> processedQuery (processQuery queryText) = "")
  /\ (Js.trim queryText = "" -> keyTerms (processQuery queryText) = []).
Proof.
  split.
  - simpl. rewrite toLowerCase_trim. symmetry. apply toLowerCase_empty.
  - intros H. rewrite keyTerms_tokens, <- tokens_trim, toLowerCase_trim, H.
    reflexivity.
Qed.

(** X3: processing the processed query again changes nothing: it has the
    same processed query and the same key terms. *)
Theorem processQuery_idempotent (queryText : string) :
  let once := processQuery queryText in
  let twice := processQuery (processedQuery once) in
  processedQuery twice = processedQuery once
  /\ keyTerms twice = keyTerms once.
Proof.
  intros once twice. subst once twice. split.
  - simpl. rewrite <- (toLowerCase_trim (Js.toLowerCase queryText)).
    now rewrite toLowerCase_idem, trim_idem.
  - rewrite !keyTerms_tokens. simpl.
    rewrite <- (toLowerCase_trim (Js.toLowerCase queryText)).
    now rewrite toLowerCase_idem, tokens_trim.
Qed.

(** ** The results of a retrieval *)

Lemma string_of_nat_inj (n m : nat) :
  Js.string_of_nat n = Js.string_of_nat m -> n = m.
Proof.
  unfold Js.string_of_nat. intros H.
  apply (f_equal NilEmpty.uint_of_string) in H.
  rewrite !NilEmpty.usu in H. injection H as H.
  apply (f_equal Nat.of_uint) in H.
  now rewrite !DecimalNat.Unsigned.of_to in H.
Qed.

Lemma NoDup_map_seq {A : Type} (f : nat -> A) (n : nat) :
  (forall i j, f i = f j -> i = j) -> List.NoDup (map f (seq 0 n)).
Proof.
  intros Hinj. apply NoDup_map_NoDup_ForallPairs; [|apply seq_NoDup].
  intros i j _ _. apply Hinj.
Qed.

Lemma mockResult_id_inj (q : string) (s : RetrievalStrategy)
    (f : gmap string string) (i j : nat) :
  id (mockResult q s f i) = id (mockResult q s f j) -> i = j.
Proof.
  simpl. intros H. injection H as H. now apply string_of_nat_inj.
Qed.

Lemma mockResult_quotes (q : string) (s : RetrievalStrategy)
    (f : gmap string string) (i : nat) :
  Js.includes (content (mockResult q s f i)) (Js.dquote ++ q ++ Js.dquote)
  = true
  /\ Js.includes (content (mockResult q s f i)) (strategy_name s) = true.
Proof.
  split.
  - eapply (includes_intro _ "This is a sample result for query ").
    cbn [content mockResult]. rewrite !append_assoc. reflexivity.
  - eapply (includes_intro _
      ("This is a sample result for query " ++ Js.dquote ++ q ++ Js.dquote
       ++ " using ")).
    cbn [content mockResult]. rewrite !append_assoc. reflexivity.
Qed.

(** X4: for [topK] below 2^32 a retrieval returns as many results as
    [topK] asks for (none for a negative [topK]) and their ids are
    pairwise distinct. *)
Theorem retrieval_ids_distinct (st : QueryEngine) (processedQuery : string)
    (strategy : RetrievalStrategy) (filters : gmap string string) (topK : Z) :
  (topK < 2 ^ 32)%Z ->
  exists out,
    fst (retrieveRelevantContent st processedQuery strategy filters topK)
    = Resolved out
    /\ length out = Z.to_nat topK
    /\ List.NoDup (map id out).
Proof.
  intros H. rewrite retrieve_resolved by exact H. simpl.
  eexists. split; [reflexivity|]. split.
  - now rewrite length_map, length_seq.
  - rewrite map_map. apply NoDup_map_seq. apply mockResult_id_inj.
Qed.

Lemma retrieval_ids_distinct_witness :
  (20 < 2 ^ 32)%Z /\
  exists out,
    fst (retrieveRelevantContent QueryEngine_init "chest pain" hybrid ∅ 20)
    = Resolved out
    /\ length out = Z.to_nat 20
    /\ List.NoDup (map id out).
Proof.
  split; [reflexivity | apply retrieval_ids_distinct; reflexivity].
Defined.

(** X5: every result of a retrieval quotes the processed query and names
    the strategy in its content; a non-empty bookname or chapter filter is
    the bookname or chapter of its metadata, and without a bookname filter
    the bookname is "Sample Medical Book". *)
Theorem retrieval_echoes_request (st : QueryEngine) (processedQuery : string)
    (strategy : RetrievalStrategy) (filters : gmap string string) (topK : Z)
    (out : list RetrievalResult) (r : RetrievalResult) :
  fst (retrieveRelevantContent st processedQuery strategy filters topK)
  = Resolved out ->
  In r out ->
  Js.includes (content r) (Js.dquote ++ processedQuery ++ Js.dquote) = true
  /\ Js.includes (content r) (strategy_name strategy) = true
  /\ (forall b, filters !! "bookname" = Some b -> b <> "" ->
        metadata r !! "bookname" = Some (VStr b))
  /\ (forall c, filters !! "chapter" = Some c -> c <> "" ->
        metadata r !! "chapter" = Some (VStr c))
  /\ (filters !! "bookname" = None \/ filters !! "bookname" = Some "" ->
        metadata r !! "bookname" = Some (VStr "Sample Medical Book")).
Proof.
  intros E Hr. unfold retrieveRelevantContent, array_from_length in E.
  destruct (2 ^ 32 <=? topK)%Z; [discriminate|]. simpl in E.
  injection E as <-. apply in_map_iff in Hr. destruct Hr as (i & <- & _).
  destruct (mockResult_quotes processedQuery strategy filters i) as [H1 H2].
  split; [exact H1|]. split; [exact H2|]. cbn [metadata mockResult].
  split; [|split].
  - intros b Hb Hne. rewrite lookup_insert_eq, Hb. simpl.
    now rewrite decide_False.
  - intros c Hc Hne. rewrite lookup_insert_ne by discriminate.
    rewrite lookup_insert_eq, Hc. simpl. now rewrite decide_False.
  - intros [Hb | Hb]; rewrite lookup_insert_eq, Hb; reflexivity.
Qed.

Lemma retrieval_echoes_request_witness :
  let r := mockResult "chest pain" keyword anatomy_filters 0 in
  fst (retrieveRelevantContent QueryEngine_init "chest pain" keyword
         anatomy_filters 1) = Resolved [r]
  /\ In r [r]
  /\ (Js.includes (content r) (Js.dquote ++ "chest pain" ++ Js.dquote) = true
      /\ Js.includes (content r) (strategy_name keyword) = true
      /\ (forall b, anatomy_filters !! "bookname" = Some b -> b <> "" ->
            metadata r !! "bookname" = Some (VStr b))
      /\ (forall c, anatomy_filters !! "chapter" = Some c -> c <> "" ->
            metadata r !! "chapter" = Some (VStr c))
      /\ (anatomy_filters !! "bookname" = None
          \/ anatomy_filters !! "bookname" = Some "" ->
            metadata r !! "bookname" = Some (VStr "Sample Medical Book"))).
Proof.
  intros r.
  assert (fst (retrieveRelevantContent QueryEngine_init "chest pain" keyword
                 anatomy_filters 1) = Resolved [r]) as E by reflexivity.
  assert (In r [r]) as Hin by (left; reflexivity).
  split; [exact E|]. split; [exact Hin|].
  exact (retrieval_echoes_request _ _ _ _ _ _ _ E Hin).
Defined.

(** X6: a retrieval touches no cell but [isSearching]; that cell ends
    [false] when the promise is resolved ([topK] below 2^32) and stays
    [true] when [Array.from] throws a [RangeError] ([topK] from 2^32 on),
    so the spinner is never cleared then. *)
Theorem retrieval_searching_flag (st : QueryEngine) (text : string)
    (s : RetrievalStrategy) (f : gmap string string) (topK : Z) :
  let settled := retrieveRelevantContent st text s f topK in
  query (snd settled) = query st
  /\ results (snd settled) = results st
  /\ strategy (snd settled) = strategy st
  /\ filters (snd settled) = filters st
  /\ showFilters (snd settled) = showFilters st
  /\ ((topK < 2 ^ 32)%Z ->
        (exists out, fst settled = Resolved out)
        /\ isSearching (snd settled) = false)
  /\ ((2 ^ 32 <= topK)%Z ->
        fst settled = Rejected "RangeError"
        /\ isSearching (snd settled) = true).
Proof.
  intros settled. subst settled.
  destruct (Z.lt_ge_cases topK (2 ^ 32)) as [H|H].
  - rewrite retrieve_resolved by exact H. simpl.
    repeat split; try reflexivity; try lia. eauto.
  - rewrite retrieve_rejected by exact H. simpl.
    repeat split; try reflexivity; lia.
Qed.

(** X7: a search for a query that is not blank stores exactly five
    results, each quoting the processed query, clears the searching flag
    and leaves the query, the strategy, the filters and the filter panel
    as they were. *)
Theorem handleSearch_stores_five (st : QueryEngine) :
  Js.trim (query st) <> "" ->
  let st' := handleSearch st in
  length (results st') = 5%nat
  /\ (forall r, In r (results st') ->
        Js.includes (content r)
          (Js.dquote ++ processedQuery (processQuery (query st)) ++ Js.dquote)
        = true)
  /\ isSearching st' = false
  /\ query st' = query st
  /\ strategy st' = strategy st
  /\ filters st' = filters st
  /\ showFilters st' = showFilters st.
Proof.
  intros H st'. subst st'. unfold handleSearch.
  rewrite decide_False by exact H.
  rewrite retrieve_resolved by reflexivity.
  cbn [results setResults]. split; [reflexivity|]. split; [|repeat split].
  intros r Hr. apply in_map_iff in Hr. destruct Hr as (i & <- & _).
  apply mockResult_quotes.
Qed.

Lemma handleSearch_stores_five_witness :
  Js.trim (query chest_pain_typed) <> "" /\
  let st' := handleSearch chest_pain_typed in
  length (results st') = 5%nat
  /\ (forall r, In r (results st') ->
        Js.includes (content r)
          (Js.dquote ++ processedQuery (processQuery (query chest_pain_typed))
           ++ Js.dquote)
        = true)
  /\ isSearching st' = false
  /\ query st' = query chest_pain_typed
  /\ strategy st' = strategy chest_pain_typed
  /\ filters st' = filters chest_pain_typed
  /\ showFilters st' = showFilters chest_pain_typed.
Proof.
  assert (Js.trim (query chest_pain_typed) <> "") as H
    by (vm_compute; discriminate).
  split; [exact H | exact (handleSearch_stores_five chest_pain_typed H)].
Defined.

(** ** Updates of the configuration list *)

Section ArraySet.

Variable a : list (option ConfigObject).
Variable index : Z.
Variable x : ConfigObject.
Hypothesis Hindex : array_index index.

Lemma array_set_index :
  array_set a index x =
  if decide (Z.to_nat index < length a)%nat
  then <[Z.to_nat index := Some x]> a
  else (a ++ replicate (Z.to_nat index - length a) None ++ [Some x])%list.
Proof.
  destruct Hindex as [H0 H1]. unfold array_set.
  replace (0 <=? index)%Z with true by (symmetry; now apply Z.leb_le).
  replace (index <? 2 ^ 32 - 1)%Z with true by (symmetry; now apply Z.ltb_lt).
  reflexivity.
Qed.

(** Reading any position of the array after the write. *)
Lemma array_set_lookup (n : nat) :
  array_set a index x !! n =
  if decide (n = Z.to_nat index) then Some (Some x)
  else if decide (n < length a)%nat then a !! n
  else if decide (n < Z.to_nat index)%nat then Some None
  else None.
Proof.
  rewrite array_set_index.
  destruct (decide (Z.to_nat index < length a)%nat) as [Hlt|Hge].
  - destruct (decide (n = Z.to_nat index)) as [->|Hn].
    + now rewrite list_lookup_insert_eq.
    + rewrite list_lookup_insert_ne by congruence.
      destruct (decide (n < length a)%nat); [reflexivity|].
      rewrite lookup_ge_None_2 by lia.
      destruct (decide (n < Z.to_nat index)%nat); [lia | reflexivity].
  - destruct (decide (n = Z.to_nat index)) as [->|Hn].
    + rewrite lookup_app_r by lia.
      rewrite lookup_app_r by (rewrite length_replicate; lia).
      rewrite length_replicate.
      now replace (Z.to_nat index - length a - (Z.to_nat index - length a))%nat
        with 0%nat by lia.
    + destruct (decide (n < length a)%nat).
      * now rewrite lookup_app_l.
      * rewrite lookup_app_r by lia.
        destruct (decide (n < Z.to_nat index)%nat).
        -- rewrite lookup_app_l by (rewrite length_replicate; lia).
           now rewrite lookup_replicate_2 by lia.
        -- rewrite lookup_app_r by (rewrite length_replicate; lia).
           rewrite length_replicate. now rewrite lookup_ge_None_2 by (simpl; lia).
Qed.

Lemma array_set_length :
  length (array_set a index x) = Nat.max (length a) (Z.to_nat index + 1).
Proof.
  rewrite array_set_index.
  destruct (decide (Z.to_nat index < length a)%nat).
  - rewrite length_insert. lia.
  - rewrite !length_app, length_replicate. simpl. lia.
Qed.

End ArraySet.

Lemma array_set_twice (a : list (option ConfigObject)) (index : Z)
    (x y : ConfigObject) :
  array_index index ->
  array_set (array_set a index x) index y = array_set a index y.
Proof.
  intros H. apply list_eq. intros n.
  rewrite !array_set_lookup, array_set_length by exact H.
  repeat case_decide; try reflexivity; lia.
Qed.

Lemma array_set_swap (a : list (option ConfigObject)) (i j : Z)
    (x y : ConfigObject) :
  array_index i -> array_index j -> i <> j ->
  array_set (array_set a i x) j y = array_set (array_set a j y) i x.
Proof.
  intros Hi Hj Hne.
  assert (Z.to_nat i <> Z.to_nat j) by (unfold array_index in *; lia).
  apply list_eq. intros n.
  rewrite !array_set_lookup, !array_set_length by assumption.
  repeat case_decide; try reflexivity; try lia.
Qed.

Lemma spread_merge (o : ConfigObject) (u1 u2 : ConfigUpdate) :
  spread (spread o u1) u2 = spread o (merge_updates u1 u2).
Proof.
  destruct u1 as [n1 s1 k1 e1 d1], u2 as [n2 s2 k2 e2 d2].
  unfold spread, merge_updates; simpl.
  now destruct n2, s2, k2, e2, d2.
Qed.

Lemma read_spread_named (o : ConfigObject) (u : ConfigUpdate) (k : ConfigKey) :
  names u k = true -> read (spread o u) k = named_value u k.
Proof.
  destruct u as [un us uk ue ud].
  destruct k; simpl; intros H; apply bool_decide_eq_true in H;
    destruct H as [v H]; simpl in H; subst; reflexivity.
Qed.

(** X8: at an array index, a key that the update names reads as the update
    says afterwards, and the list is as long as before or, when the index
    is past its end, just long enough to hold the index. *)
Theorem updateConfig_reads_back (st : EnvironmentSetup) (index : Z)
    (updates : ConfigUpdate) (k : ConfigKey) :
  array_index index ->
  names updates k = true ->
  read_at (configs (updateConfig st index updates)) index k
  = named_value updates k
  /\ length (configs (updateConfig st index updates))
     = Nat.max (length (configs st)) (Z.to_nat index + 1).
Proof.
  intros Hi Hk. unfold updateConfig. cbn [configs setConfigs]. split.
  - unfold read_at. rewrite element_array_set_same by exact Hi. simpl.
    now apply read_spread_named.
  - now apply array_set_length.
Qed.

Lemma updateConfig_reads_back_witness :
  array_index 2 /\ names (status_update testing) k_status = true /\
  (read_at (configs (updateConfig (one_service "") 2 (status_update testing)))
     2 k_status
   = named_value (status_update testing) k_status
   /\ length (configs (updateConfig (one_service "") 2 (status_update testing)))
      = Nat.max (length (configs (one_service ""))) (Z.to_nat 2 + 1)).
Proof.
  assert (array_index 2) as Hi by (unfold array_index; lia).
  split; [exact Hi|]. split; [reflexivity|].
  exact (updateConfig_reads_back (one_service "") 2 (status_update testing)
           k_status Hi eq_refl).
Defined.

(** X9: after two updates of the same array index, every index reads, and
    the list is as long, as after the one update that merges them, the
    second winning where both name a key; the other cells agree too.
    (A hole and an undefined element both read as undefined.) *)
Theorem updateConfig_merges (st : EnvironmentSetup) (index : Z)
    (u1 u2 : ConfigUpdate) :
  array_index index ->
  let twice := updateConfig (updateConfig st index u1) index u2 in
  let merged := updateConfig st index (merge_updates u1 u2) in
  (forall j, element (configs twice) j = element (configs merged) j)
  /\ (forall j k, read_at (configs twice) j k = read_at (configs merged) j k)
  /\ length (configs twice) = length (configs merged)
  /\ activeTab twice = activeTab merged
  /\ isSaving twice = isSaving merged
  /\ saveSuccess twice = saveSuccess merged.
Proof.
  intros Hi twice merged.
  assert (configs twice = configs merged) as E.
  { subst twice merged. unfold updateConfig. cbn [configs setConfigs].
    rewrite element_array_set_same by exact Hi. simpl.
    now rewrite array_set_twice, spread_merge by exact Hi. }
  unfold read_at. rewrite E. repeat split.
Qed.

Lemma updateConfig_merges_witness :
  array_index 2 /\
  let twice :=
    updateConfig (updateConfig (one_service "") 2 (status_update testing)) 2
      (status_update valid) in
  let merged :=
    updateConfig (one_service "") 2
      (merge_updates (status_update testing) (status_update valid)) in
  (forall j, element (configs twice) j = element (configs merged) j)
  /\ (forall j k, read_at (configs twice) j k = read_at (configs merged) j k)
  /\ length (configs twice) = length (configs merged)
  /\ activeTab twice = activeTab merged
  /\ isSaving twice = isSaving merged
  /\ saveSuccess twice = saveSuccess merged.
Proof.
  assert (array_index 2) as Hi by (unfold array_index; lia).
  split; [exact Hi|].
  exact (updateConfig_merges (one_service "") 2 (status_update testing)
           (status_update valid) Hi).
Defined.

(** X10: after updates of two different array indices, every index reads
    the same, and the list is as long, whichever update is made first;
    the other cells agree too.  (A hole and an undefined element both read
    as undefined.) *)
Theorem updateConfig_commutes (st : EnvironmentSetup) (i j : Z)
    (ui uj : ConfigUpdate) :
  array_index i -> array_index j -> i <> j ->
  let i_first := updateConfig (updateConfig st i ui) j uj in
  let j_first := updateConfig (updateConfig st j uj) i ui in
  (forall n, element (configs i_first) n = element (configs j_first) n)
  /\ (forall n k,
        read_at (configs i_first) n k = read_at (configs j_first) n k)
  /\ length (configs i_first) = length (configs j_first)
  /\ activeTab i_first = activeTab j_first
  /\ isSaving i_first = isSaving j_first
  /\ saveSuccess i_first = saveSuccess j_first.
Proof.
  intros Hi Hj Hne i_first j_first.
  assert (configs i_first = configs j_first) as E.
  { subst i_first j_first. unfold updateConfig. cbn [configs setConfigs].
    rewrite (element_array_set_other _ i j) by congruence.
    rewrite (element_array_set_other _ j i) by congruence.
    now rewrite array_set_swap by assumption. }
  unfold read_at. rewrite E. repeat split.
Qed.

Lemma updateConfig_commutes_witness :
  array_index 0 /\ array_index 3 /\ (0 <> 3)%Z /\
  let i_first :=
    updateConfig (updateConfig (one_service "") 0 (status_update valid)) 3
      (status_update testing) in
  let j_first :=
    updateConfig (updateConfig (one_service "") 3 (status_update testing)) 0
      (status_update valid) in
  (forall n, element (configs i_first) n = element (configs j_first) n)
  /\ (forall n k,
        read_at (configs i_first) n k = read_at (configs j_first) n k)
  /\ length (configs i_first) = length (configs j_first)
  /\ activeTab i_first = activeTab j_first
  /\ isSaving i_first = isSaving j_first
  /\ saveSuccess i_first = saveSuccess j_first.
Proof.
  assert (array_index 0) as H0 by (unfold array_index; lia).
  assert (array_index 3) as H3 by (unfold array_index; lia).
  assert (0 <> 3)%Z as Hne by lia.
  split; [exact H0|]. split; [exact H3|]. split; [exact Hne|].
  exact (updateConfig_commutes (one_service "") 0 3 (status_update valid)
           (status_update testing) H0 H3 Hne).
Defined.

(** ** Testing a configuration *)

Lemma updateConfig_from_current (st : EnvironmentSetup) (index : Z)
    (updates : ConfigUpdate) :
  updateConfig_from (configs st) st index updates = updateConfig st index updates.
Proof. reflexivity. Qed.

(** X11: for an entry with a key, [testConfig] ends with the status
    [valid] when the trimmed key is longer than 10 characters and
    [invalid] otherwise, never [testing]; the other keys of the entry, the
    other entries and the other cells are as before. *)
Theorem testConfig_verdict (st : EnvironmentSetup) (index : Z)
    (o : ConfigObject) (key : string) :
  array_index index ->
  element (configs st) index = Some o ->
  c_key o = Some key ->
  let verdict :=
    if decide (10 < String.length (Js.trim key)) then valid else invalid in
  testConfig st index
  = (Resolved (), updateConfig st index (status_update verdict))
  /\ read_at (configs (snd (testConfig st index))) index k_status
     = Some (CStatus verdict)
  /\ (forall k, k <> k_status ->
        read_at (configs (snd (testConfig st index))) index k = read o k)
  /\ (forall j, j <> index ->
        element (configs (snd (testConfig st index))) j
        = element (configs st) j)
  /\ length (configs (snd (testConfig st index))) = length (configs st).
Proof.
  intros Hi Ho Hk verdict.
  assert (testConfig st index
          = (Resolved (), updateConfig st index (status_update verdict))) as E.
  { unfold testConfig. rewrite Ho, Hk. subst verdict.
    destruct (decide (10 < String.length (Js.trim key))); reflexivity. }
  rewrite E. cbn [snd]. split; [reflexivity|]. split; [|split; [|split]].
  - destruct (updateConfig_reads_back st index (status_update verdict)
                k_status Hi eq_refl) as [H _].
    exact H.
  - intros k Hk'. unfold updateConfig, read_at. cbn [configs setConfigs].
    rewrite element_array_set_same by exact Hi. rewrite Ho. simpl.
    apply read_spread. now destruct k.
  - intros j Hj. unfold updateConfig. cbn [configs setConfigs].
    now apply element_array_set_other.
  - unfold updateConfig. cbn [configs setConfigs].
    rewrite array_set_length by exact Hi.
    unfold element in Ho. destruct (index <? 0)%Z; [discriminate|].
    destruct (configs st !! Z.to_nat index) eqn:El; [|discriminate].
    apply lookup_lt_Some in El. lia.
Qed.

Lemma testConfig_verdict_witness :
  array_index 0 /\
  element (configs (one_service "  sk-or-v1  ")) 0
  = Some (openrouter_config "  sk-or-v1  ") /\
  c_key (openrouter_config "  sk-or-v1  ") = Some "  sk-or-v1  " /\
  testConfig (one_service "  sk-or-v1  ") 0
  = (Resolved (),
     updateConfig (one_service "  sk-or-v1  ") 0 (status_update invalid)).
Proof.
  assert (array_index 0) as Hi by (unfold array_index; lia).
  split; [exact Hi|]. split; [reflexivity|]. split; [reflexivity|].
  exact (proj1 (testConfig_verdict (one_service "  sk-or-v1  ") 0
                  (openrouter_config "  sk-or-v1  ") "  sk-or-v1  "
                  Hi eq_refl eq_refl)).
Defined.

(** X12: where the list has no entry, or the entry has no key,
    [testConfig] is rejected with a [TypeError] after the first update has
    been made: the entry at the index is left with the status [testing]. *)
Theorem testConfig_missing_entry (st : EnvironmentSetup) (index : Z) :
  array_index index ->
  (element (configs st) index ≫= c_key) = None ->
  fst (testConfig st index) = Rejected "TypeError"
  /\ read_at (configs (snd (testConfig st index))) index k_status
     = Some (CStatus testing).
Proof.
  intros Hi Hnone.
  assert (testConfig st index
          = (Rejected "TypeError",
             updateConfig st index (status_update testing))) as E.
  { unfold testConfig.
    destruct (element (configs st) index) as [o|]; [|reflexivity].
    simpl in Hnone. now rewrite Hnone. }
  rewrite E. cbn [fst snd]. split; [reflexivity|].
  destruct (updateConfig_reads_back st index (status_update testing)
              k_status Hi eq_refl) as [H _].
  exact H.
Qed.

Lemma testConfig_missing_entry_witness :
  array_index 1 /\
  (element (configs (one_service "")) 1 ≫= c_key) = None /\
  (fst (testConfig (one_service "") 1) = Rejected "TypeError"
   /\ read_at (configs (snd (testConfig (one_service "") 1))) 1 k_status
      = Some (CStatus testing)).
Proof.
  assert (array_index 1) as Hi by (unfold array_index; lia).
  split; [exact Hi|]. split; [reflexivity|].
  exact (testConfig_missing_entry (one_service "") 1 Hi eq_refl).
Defined.

(** ** Fetching questions *)

Section Fetch.

Import DataConnector.

Variable f : Filters.

Lemma build_calls (c : Call) :
  In c (build (Some f)) <->
  (exists b, truthy_string (bookname f) = Some b /\ c = call_eq "bookname" (CText b))
  \/ (exists ch, truthy_string (chapter f) = Some ch
                 /\ c = call_eq "chapter" (CText ch))
  \/ (exists a, active f = Some a /\ c = call_eq "active" (CFlag a))
  \/ (exists n, truthy_number (limit f) = Some n /\ c = call_limit n)
  \/ (exists o, truthy_number (offset f) = Some o
                /\ c = call_range o
                         (o + default 10%Z (truthy_number (limit f)) - 1)%Z).
Proof.
  unfold build. rewrite !in_app_iff.
  destruct (truthy_string (bookname f)), (truthy_string (chapter f)),
    (active f), (truthy_number (limit f)), (truthy_number (offset f));
    simpl; split; intros H;
    repeat match goal with
    | H : _ \/ _ |- _ => destruct H
    | H : exists _, _ |- _ => destruct H as [? [? ?]]
    | H : False |- _ => destruct H
    | H : Some _ = Some _ |- _ => injection H as ->
    | H : None = Some _ |- _ => discriminate H
    end; subst; eauto 10.
Qed.

Lemma truthy_number_spec (n : option Z) (z : Z) :
  truthy_number n = Some z <-> n = Some z /\ z <> 0%Z.
Proof.
  unfold truthy_number. destruct n as [y|]; [|split; [discriminate | tauto]].
  destruct (decide (y = 0%Z)) as [->|Hy]; split.
  - discriminate.
  - intros [H Hz]. congruence.
  - intros H. injection H as ->. tauto.
  - intros [H _]. exact H.
Qed.

Lemma truthy_string_spec (s : option string) (t : string) :
  truthy_string s = Some t <-> s = Some t /\ t <> "".
Proof.
  unfold truthy_string. destruct s as [y|]; [|split; [discriminate | tauto]].
  destruct (decide (y = "")) as [->|Hy]; split.
  - discriminate.
  - intros [H Hz]. congruence.
  - intros H. injection H as ->. tauto.
  - intros [H _]. exact H.
Qed.

End Fetch.

(** X13: for filters whose limit and offset are below 2^52 in absolute
    value, [fetchQuestions] asks for a range only when the offset is not
    0; the range then starts at the offset, spans as many rows as the
    limit says, or 10 rows when the limit is missing or 0, and ends below
    2^53 in absolute value; with an offset that is missing or 0 no range
    is asked for. *)
Theorem fetchQuestions_range (f : DataConnector.Filters) :
  small_filters f ->
  (forall from to,
     In (DataConnector.call_range from to) (DataConnector.build (Some f)) ->
     DataConnector.offset f = Some from /\ from <> 0%Z
     /\ (to - from + 1 =
         match DataConnector.limit f with
         | Some n => if decide (n = 0%Z) then 10 else n
         | None => 10
         end)%Z
     /\ (- 2 ^ 53 < to < 2 ^ 53)%Z)
  /\ (DataConnector.offset f = None \/ DataConnector.offset f = Some 0%Z ->
      forall from to,
        ~ In (DataConnector.call_range from to) (DataConnector.build (Some f))).
Proof.
  intros [Hlimit Hoffset]. split.
  - intros from to H. apply build_calls in H.
    destruct H as [(? & _ & ?) | [(? & _ & ?) | [(? & _ & ?)
      | [(? & _ & ?) | (o & Ho & E)]]]]; try discriminate.
    injection E as -> ->. apply truthy_number_spec in Ho.
    destruct Ho as [Ho Hne]. split; [exact Ho|]. split; [exact Hne|].
    specialize (Hoffset o Ho). unfold small_integer in *.
    unfold DataConnector.truthy_number.
    destruct (DataConnector.limit f) as [n|]; simpl; [|lia].
    specialize (Hlimit n eq_refl).
    destruct (decide (n = 0%Z)); simpl; lia.
  - intros Hoff from to H. apply build_calls in H.
    destruct H as [(? & _ & ?) | [(? & _ & ?) | [(? & _ & ?)
      | [(? & _ & ?) | (o & Ho & E)]]]]; try discriminate.
    apply truthy_number_spec in Ho. destruct Ho as [Ho Hne].
    destruct Hoff as [Hoff | Hoff]; congruence.
Qed.

Lemma fetchQuestions_range_witness :
  small_filters page_two /\
  ((forall from to,
      In (DataConnector.call_range from to)
         (DataConnector.build (Some page_two)) ->
      DataConnector.offset page_two = Some from /\ from <> 0%Z
      /\ (to - from + 1 =
          match DataConnector.limit page_two with
          | Some n => if decide (n = 0%Z) then 10 else n
          | None => 10
          end)%Z
      /\ (- 2 ^ 53 < to < 2 ^ 53)%Z)
   /\ (DataConnector.offset page_two = None
       \/ DataConnector.offset page_two = Some 0%Z ->
       forall from to,
         ~ In (DataConnector.call_range from to)
              (DataConnector.build (Some page_two)))).
Proof.
  assert (small_filters page_two) as H.
  { split; intros z E; injection E as <-; unfold small_integer; lia. }
  split; [exact H | exact (fetchQuestions_range page_two H)].
Defined.

(** X14: the equality filters that [fetchQuestions] applies are the
    bookname and the chapter when they are not empty and [active] whenever
    it is given, [false] included; nothing else is compared. *)
Theorem fetchQuestions_equalities (f : DataConnector.Filters)
    (column : string) (value : DataConnector.ColumnValue) :
  In (DataConnector.call_eq column value) (DataConnector.build (Some f)) <->
  (exists b, DataConnector.bookname f = Some b /\ b <> ""
             /\ column = "bookname" /\ value = DataConnector.CText b)
  \/ (exists c, DataConnector.chapter f = Some c /\ c <> ""
                /\ column = "chapter" /\ value = DataConnector.CText c)
  \/ (exists a, DataConnector.active f = Some a
                /\ column = "active" /\ value = DataConnector.CFlag a).
Proof.
  rewrite build_calls. split.
  - intros [(b & Hb & E) | [(c & Hc & E) | [(a & Ha & E)
      | [(? & _ & ?) | (? & _ & ?)]]]]; try discriminate.
    + apply truthy_string_spec in Hb. injection E as -> ->.
      left. exists b. tauto.
    + apply truthy_string_spec in Hc. injection E as -> ->.
      right; left. exists c. tauto.
    + injection E as -> ->. right; right. exists a. tauto.
  - intros [(b & Hb & Hne & -> & ->) | [(c & Hc & Hne & -> & ->)
      | (a & Ha & -> & ->)]].
    + left. exists b. split; [|reflexivity]. now apply truthy_string_spec.
    + right; left. exists c. split; [|reflexivity].
      now apply truthy_string_spec.
    + right; right; left. now exists a.
Qed.

(** X15: [fetchQuestions] never returns data together with an error;
    without a client it returns the error "Supabase client not
    initialized"; with one, the error is null exactly when the query
    resolves without an error, and the data is then the data of the
    query. *)
Theorem fetchQuestions_result (supabase : option DataConnector.Client)
    (filters : option DataConnector.Filters) :
  let r := DataConnector.fetchQuestions supabase filters in
  (DataConnector.error r <> None -> DataConnector.data r = None)
  /\ (supabase = None ->
      DataConnector.error r = Some "Supabase client not initialized")
  /\ (forall client, supabase = Some client ->
      (DataConnector.error r = None <->
       exists d,
         client (DataConnector.build filters)
         = Resolved {| DataConnector.data := d; DataConnector.error := None |})
      /\ (forall q,
            client (DataConnector.build filters) = Resolved q ->
            DataConnector.error q = None ->
            DataConnector.data r = DataConnector.data q)).
Proof.
  intros r. subst r. unfold DataConnector.fetchQuestions.
  destruct supabase as [client|]; simpl.
  - destruct (client (DataConnector.build filters)) as [[d e]|msg] eqn:E;
      simpl.
    + destruct e as [m|]; simpl.
      * split; [reflexivity|]. split; [discriminate|].
        intros c Hc. injection Hc as <-. rewrite E. split.
        -- split; [discriminate|]. intros [d' H]. discriminate.
        -- intros q Hq Hn. injection Hq as <-. discriminate.
      * split; [congruence|]. split; [discriminate|].
        intros c Hc. injection Hc as <-. rewrite E. split.
        -- split; [eauto | reflexivity].
        -- intros q Hq _. now injection Hq as <-.
    + split; [reflexivity|]. split; [discriminate|].
      intros c Hc. injection Hc as <-. rewrite E. split.
      * split; [discriminate|]. intros [d' H]. discriminate.
      * intros q Hq. discriminate.
  - split; [reflexivity|]. split; [reflexivity|]. discriminate.
Qed.

(** ** Similarity search and embedding *)

Lemma mockSimilar_id_inj (i j : nat) :
  sim_id (mockSimilar i) = sim_id (mockSimilar j) -> i = j.
Proof.
  simpl. intros H. injection H as H. now apply string_of_nat_inj.
Qed.

Lemma mockSimilar_sorted (start n : nat) :
  StronglySorted (fun a b => (sim_score b < sim_score a)%Q)
                 (map mockSimilar (seq start n)).
Proof.
  revert start. induction n as [|n IH]; intros start; simpl.
  - constructor.
  - constructor; [apply IH|].
    apply List.Forall_forall. intros x Hx.
    apply in_map_iff in Hx. destruct Hx as (j & <- & Hj).
    apply in_seq in Hj. unfold Qlt. simpl. lia.
Qed.

(** X16: for [topK] below 2^32, [findSimilar] returns as many items as
    [topK] asks for (none for a negative [topK]), with pairwise distinct
    ids and strictly decreasing scores, the first score being 1. *)
Theorem findSimilar_items (text : string) (topK : Z) :
  (topK < 2 ^ 32)%Z ->
  exists out,
    findSimilar text topK = Resolved out
    /\ length out = Z.to_nat topK
    /\ List.NoDup (map sim_id out)
    /\ StronglySorted (fun a b => (sim_score b < sim_score a)%Q) out
    /\ (forall first, out !! 0%nat = Some first -> (sim_score first == 1)%Q).
Proof.
  intros H. unfold findSimilar, array_from_length.
  destruct (Z.leb_spec (2 ^ 32) topK); [lia|].
  eexists. split; [reflexivity|]. split; [|split; [|split]].
  - now rewrite length_map, length_seq.
  - rewrite map_map. apply NoDup_map_seq. apply mockSimilar_id_inj.
  - apply mockSimilar_sorted.
  - intros first Hf. destruct (Z.to_nat topK); simpl in Hf; [discriminate|].
    injection Hf as <-. reflexivity.
Qed.

Lemma findSimilar_items_witness :
  (5 < 2 ^ 32)%Z /\
  exists out,
    findSimilar "chest pain" 5 = Resolved out
    /\ length out = Z.to_nat 5
    /\ List.NoDup (map sim_id out)
    /\ StronglySorted (fun a b => (sim_score b < sim_score a)%Q) out
    /\ (forall first, out !! 0%nat = Some first -> (sim_score first == 1)%Q).
Proof.
  split; [reflexivity | apply findSimilar_items; reflexivity].
Defined.

Lemma random_array_draws (n : nat) (g : Random) :
  random_array n g
  = (map (draws g) (seq (drawn g) n),
     {| draws := draws g; drawn := drawn g + n |}).
Proof.
  revert g. induction n as [|n IH]; intros g.
  - simpl. destruct g as [d k]. simpl. now rewrite Nat.add_0_r.
  - cbn [random_array Math_random]. rewrite IH. cbn [draws drawn seq map].
    now rewrite Nat.add_succ_r.
Qed.

Lemma Resolved_inj {A : Type} (a b : A) :
  @Resolved A a = Resolved b -> a = b.
Proof. intros H. now injection H. Qed.

Lemma Forall_draws (P : Q -> Prop) (g : Random) (k n : nat) :
  (forall i, P (draws g i)) -> Forall P (map (draws g) (seq k n)).
Proof.
  intros H. apply List.Forall_forall. intros x Hx.
  apply in_map_iff in Hx. destruct Hx as (i & <- & _). apply H.
Qed.

(** X17: whatever the text, [embedText] returns the next 1536 numbers of
    [Math.random] in the order they are drawn and leaves the generator
    1536 draws further; when every draw lies in [0,1), so does every
    component of the vector. *)
Theorem embedText_draws (g : Random) (text : string) :
  embedText g text
  = (Resolved (map (draws g) (seq (drawn g) 1536)),
     {| draws := draws g; drawn := drawn g + 1536 |})
  /\ ((forall n, (0 <= draws g n < 1)%Q) ->
      forall v, fst (embedText g text) = Resolved v ->
      Forall (fun x => (0 <= x < 1)%Q) v).
Proof.
  assert (embedText g text
          = (Resolved (map (draws g) (seq (drawn g) 1536)),
             {| draws := draws g; drawn := drawn g + 1536 |})) as E.
  { unfold embedText. now rewrite random_array_draws. }
  split; [exact E|]. intros Hd v Hv. rewrite E in Hv. cbn [fst] in Hv.
  apply Resolved_inj in Hv. subst v. now apply Forall_draws.
Qed.

(** ** Processing a batch *)

Section Batch.

Import VectorProcessor.

Lemma embedText_resolved (g : Random) (text : string) :
  embedText g text
  = (Resolved (map (draws g) (seq (drawn g) 1536)),
     {| draws := draws g; drawn := drawn g + 1536 |}).
Proof. unfold embedText. now rewrite random_array_draws. Qed.

(** The loop from index [i] on: every cell at its end. *)
Lemma batch_loop_end (len : nat) (rest : list VectorReadyQuestion) :
  forall (i : nat) (st : Cells) (g : Random),
    let st' := fst (batch_loop len i rest st g) in
    let g' := snd (batch_loop len i rest st g) in
    processingStatus st' = complete
    /\ processedItems st'
       = match rest with [] => processedItems st | _ => i + length rest end
    /\ progress st'
       = match rest with
         | [] => progress st
         | _ => percent (i + length rest - 1) len
         end
    /\ totalItems st' = totalItems st
    /\ error st' = error st
    /\ embeddingModel st' = embeddingModel st
    /\ storageType st' = storageType st
    /\ draws g' = draws g
    /\ drawn g' = drawn g + 1536 * length rest.
Proof.
  induction rest as [|q rest IH]; intros i st g.
  - simpl. repeat split; lia.
  - cbn [batch_loop]. rewrite embedText_resolved.
    specialize (IH (S i)
      (setProgress (percent i len) (setProcessedItems (i + 1) st))
      {| draws := draws g; drawn := drawn g + 1536 |}).
    cbn zeta in IH. destruct IH as (H1 & H2 & H3 & H4 & H5 & H6 & H7 & H8 & H9).
    cbn zeta. rewrite H1, H2, H3, H4, H5, H6, H7, H8, H9.
    cbn [processedItems progress totalItems error embeddingModel storageType
         setProgress setProcessedItems draws drawn length].
    repeat split; try lia.
    + destruct rest; simpl; lia.
    + destruct rest; simpl; [f_equal; lia|]. f_equal. lia.
Qed.

End Batch.

(** X18: [processBatch] ends with the status [complete], with as many
    processed items as there are questions, which is also the total, and
    with [Math.random] drawn 1536 times for each question; the error and
    the selected model and storage are untouched, and the progress of an
    empty batch is 0. *)
Theorem processBatch_completes (st : VectorProcessor.Cells) (g : Random)
    (questions : list VectorReadyQuestion) :
  let st' := fst (VectorProcessor.processBatch st g questions) in
  let g' := snd (VectorProcessor.processBatch st g questions) in
  VectorProcessor.processingStatus st' = VectorProcessor.complete
  /\ VectorProcessor.processedItems st' = length questions
  /\ VectorProcessor.totalItems st' = length questions
  /\ VectorProcessor.error st' = VectorProcessor.error st
  /\ VectorProcessor.embeddingModel st' = VectorProcessor.embeddingModel st
  /\ VectorProcessor.storageType st' = VectorProcessor.storageType st
  /\ drawn g' = drawn g + 1536 * length questions
  /\ (questions = [] -> VectorProcessor.progress st' = 0%float).
Proof.
  intros st' g'. subst st' g'. unfold VectorProcessor.processBatch.
  match goal with
  | |- context [VectorProcessor.batch_loop ?len ?i ?rest ?s ?r] =>
      destruct (batch_loop_end len rest i s r)
        as (H1 & H2 & H3 & H4 & H5 & H6 & H7 & _ & H9)
  end.
  rewrite H1, H2, H3, H4, H5, H6, H7, H9.
  cbn [VectorProcessor.processedItems VectorProcessor.totalItems
       VectorProcessor.error VectorProcessor.embeddingModel
       VectorProcessor.storageType VectorProcessor.progress
       VectorProcessor.setProgress VectorProcessor.setProcessedItems
       VectorProcessor.setTotalItems VectorProcessor.setProcessingStatus].
  repeat split; try reflexivity.
  - now destruct questions.
  - now intros ->.
Qed.

(** ** Generating a response *)

Section Generate.

Import ModelConnector.

Variable number : Type.
Variable render : number -> string.

(** Streaming appends the text to the response and touches nothing else. *)
Lemma stream_appends (text : string) :
  forall st : Cells number,
    stream number text st = setResponse number (response number st ++ text) st.
Proof.
  induction text as [|c text IH]; intros st; simpl.
  - rewrite append_nil_r. now destruct st.
  - rewrite IH. unfold setResponse. simpl.
    now rewrite append_assoc.
Qed.

End Generate.

(** X20: whatever the response cell held and whatever context is passed,
    [generateResponse], appending one character at a time, ends with the
    whole mock response for the prompt and the parameters, which quotes
    the prompt; the generating flag is off, the error is null, and the
    prompt, the parameters and the advanced panel are untouched. *)
Theorem generateResponse_streams (number : Type) (render : number -> string)
    (st : ModelConnector.Cells number) (promptText retrievedContext : string)
    (params : ModelConnector.ModelParameters number) :
  let st' :=
    ModelConnector.generateResponse number render st promptText
      retrievedContext params in
  ModelConnector.response number st'
  = ModelConnector.mockResponse number render promptText params
  /\ Js.includes (ModelConnector.response number st')
                 (Js.dquote ++ promptText ++ Js.dquote) = true
  /\ ModelConnector.isGenerating number st' = false
  /\ ModelConnector.error number st' = None
  /\ ModelConnector.prompt number st' = ModelConnector.prompt number st
  /\ ModelConnector.parameters number st' = ModelConnector.parameters number st
  /\ ModelConnector.showAdvanced number st'
     = ModelConnector.showAdvanced number st.
Proof.
  intros st'. subst st'. unfold ModelConnector.generateResponse.
  rewrite stream_appends.
  cbn [ModelConnector.response ModelConnector.setResponse
       ModelConnector.setIsGenerating ModelConnector.setError
       ModelConnector.isGenerating ModelConnector.error ModelConnector.prompt
       ModelConnector.parameters ModelConnector.showAdvanced].
  change ("" ++ ModelConnector.mockResponse number render promptText params)
    with (ModelConnector.mockResponse number render promptText params).
  split; [reflexivity|]. split; [|repeat split].
  eapply (includes_intro _
    ("This is a simulated response from the Deepseek-r1 model via OpenRouter API."
     ++ nl ++ "      " ++ nl ++
     "In a real implementation, this would contain the model's response to your prompt:"
     ++ nl)).
  unfold ModelConnector.mockResponse. rewrite !append_assoc. reflexivity.
Qed.

(** ** The progress of a batch on binary64 *)

Section Binary64.

Lemma div_eucl_mul (b c : Z) : (0 < b)%Z -> Z.div_eucl (b * c) b = (c, 0%Z).
Proof.
  intros Hb.
  pose proof (Z.div_mul c b ltac:(lia)) as Hd.
  pose proof (Z.mod_mul c b ltac:(lia)) as Hm.
  unfold Z.div, Z.modulo in Hd, Hm. rewrite (Z.mul_comm b c).
  destruct (Z.div_eucl (c * b) b) as [q r]. now subst.
Qed.

Lemma div_self (x : float) (s : bool) (m : positive) (e : Z) :
  Prim2SF x = S754_finite s m e -> (x / x)%float = 1%float.
Proof.
  intros H. apply Prim2SF_inj. rewrite FloatAxioms.div_spec, H.
  unfold SF64div, SFdiv, SFdiv_core_binary. cbv zeta.
  rewrite !Z.sub_diag.
  change (Z.min (fexp prec emax 0) 0) with (-53)%Z.
  change (0 - -53)%Z with 53%Z. cbv iota.
  rewrite Z.shiftl_mul_pow2 by lia.
  rewrite div_eucl_mul by lia.
  assert (new_location (Z.pos m) 0 = loc_Exact) as ->.
  { unfold new_location, new_location_even, new_location_odd.
    now destruct (Z.even (Z.pos m)). }
  destruct s; vm_compute; reflexivity.
Qed.

Lemma digits2_pos_iter (p k : positive) :
  digits2_pos (Pos.iter xO p k) = (digits2_pos p + k)%positive.
Proof.
  induction k as [|k IH] using Pos.peano_ind.
  - simpl. lia.
  - rewrite Pos.iter_succ. simpl. rewrite IH. lia.
Qed.

Lemma digits2_pos_lower (p : positive) :
  (2 ^ (Z.pos (digits2_pos p) - 1) <= Z.pos p)%Z.
Proof.
  induction p as [p IH|p IH|]; simpl digits2_pos.
  - rewrite Pos2Z.inj_succ.
    replace (Z.succ (Z.pos (digits2_pos p)) - 1)%Z
      with (Z.succ (Z.pos (digits2_pos p) - 1))%Z by lia.
    rewrite Z.pow_succ_r by lia. lia.
  - rewrite Pos2Z.inj_succ.
    replace (Z.succ (Z.pos (digits2_pos p)) - 1)%Z
      with (Z.succ (Z.pos (digits2_pos p) - 1))%Z by lia.
    rewrite Z.pow_succ_r by lia. lia.
  - simpl. lia.
Qed.

Lemma binary_round_aux_exact (sx : bool) (mz : positive) (ez : Z) :
  digits2_pos mz = 53%positive ->
  (-1074 <= ez <= 971)%Z ->
  binary_round_aux prec emax sx (Z.pos mz) ez loc_Exact = S754_finite sx mz ez.
Proof.
  intros Hd He. unfold binary_round_aux, shr_fexp. simpl Zdigits2.
  rewrite Hd.
  assert (fexp prec emax (53 + ez) = ez) as Hf
    by (unfold fexp, emin, prec, emax; lia).
  change (IntDef.Z.add 53 ez) with (53 + ez)%Z.
  change (IntDef.Z.sub (fexp prec emax (53 + ez)) ez)
    with (fexp prec emax (53 + ez) - ez)%Z.
  rewrite Hf, Z.sub_diag.
  cbn [shr shr_record_of_loc round_nearest_even shr_m shr_r shr_s
       loc_of_shr_record Zdigits2].
  rewrite Hd.
  change (IntDef.Z.add 53 ez) with (53 + ez)%Z.
  change (IntDef.Z.sub (fexp prec emax (53 + ez)) ez)
    with (fexp prec emax (53 + ez) - ez)%Z.
  rewrite Hf, Z.sub_diag.
  cbn [shr shr_record_of_loc shr_m].
  change (IntDef.Z.sub emax prec) with 971%Z.
  destruct (Z.leb_spec ez 971); [reflexivity | lia].
Qed.

Lemma of_Z_finite (z : Z) :
  (0 < z < 2 ^ 53)%Z ->
  exists m e, Prim2SF (of_uint63 (Uint63.of_Z z)) = S754_finite false m e.
Proof.
  intros Hz. rewrite of_uint63_spec, Uint63.of_Z_spec.
  rewrite Z.mod_small by (change wB with (2 ^ 63)%Z; lia).
  destruct z as [|p|p]; try lia. simpl binary_normalize.
  unfold binary_round.
  pose proof (digits2_pos_lower p) as Hlow.
  assert (Z.pos (digits2_pos p) <= 53)%Z as Hd53.
  { destruct (Z.le_gt_cases (Z.pos (digits2_pos p)) 53) as [|Hgt]; [easy|].
    assert (2 ^ 53 <= 2 ^ (Z.pos (digits2_pos p) - 1))%Z
      by (apply Z.pow_le_mono_r; lia).
    lia. }
  assert (fexp prec emax (Z.pos (digits2_pos p) + 0) = Z.pos (digits2_pos p) - 53)%Z
    as Hf by (unfold fexp, emin, prec, emax; lia).
  rewrite Hf. unfold shl_align. rewrite Z.sub_0_r.
  destruct (Z.pos (digits2_pos p) - 53)%Z as [|k|k] eqn:Ek; try lia.
  - rewrite binary_round_aux_exact; [eauto | lia | lia].
  - rewrite binary_round_aux_exact; [eauto | | lia].
    rewrite digits2_pos_iter. lia.
Qed.

Lemma of_nat_finite (n : nat) :
  (0 < Z.of_nat n < 2 ^ 53)%Z ->
  exists m e, Prim2SF (JsMath.of_nat n) = S754_finite false m e.
Proof.
  intros H. unfold JsMath.of_nat, JsMath.of_Z.
  destruct (Z.ltb_spec (Z.of_nat n) 0); [lia|]. now apply of_Z_finite.
Qed.

(** The last question of a batch brings the percentage to 100. *)
Lemma percent_last (n : nat) :
  (0 < Z.of_nat n < 2 ^ 53)%Z ->
  VectorProcessor.percent (n - 1) n = 100%float.
Proof.
  intros H. unfold VectorProcessor.percent.
  replace (n - 1 + 1)%nat with n by lia.
  destruct (of_nat_finite n H) as (m & e & E).
  rewrite (div_self _ _ _ _ E). vm_compute. reflexivity.
Qed.

End Binary64.

(** X19: a batch that is not empty (and shorter than 2^53 questions) ends
    with the progress at 100, computed on binary64 as the source does:
    [Math.round((n / n) * 100)] for the last of [n] questions. *)
Theorem processBatch_progress_full (st : VectorProcessor.Cells) (g : Random)
    (questions : list VectorReadyQuestion) :
  questions <> [] ->
  (Z.of_nat (length questions) < 2 ^ 53)%Z ->
  VectorProcessor.progress (fst (VectorProcessor.processBatch st g questions))
  = 100%float.
Proof.
  intros Hne Hlen. unfold VectorProcessor.processBatch.
  match goal with
  | |- context [VectorProcessor.batch_loop ?len ?i ?rest ?s ?r] =>
      destruct (batch_loop_end len rest i s r) as (_ & _ & H3 & _)
  end.
  rewrite H3. destruct questions as [|q rest]; [contradiction|].
  replace (0 + length (q :: rest) - 1)%nat with (length (q :: rest) - 1)%nat
    by lia.
  apply percent_last. split; [simpl length; lia | exact Hlen].
Qed.

Lemma processBatch_progress_full_witness :
  map VectorProcessor.sampleQuestion (seq 0 10) <> [] /\
  (Z.of_nat (length (map VectorProcessor.sampleQuestion (seq 0 10))) < 2 ^ 53)%Z
  /\
  VectorProcessor.progress
    (fst (VectorProcessor.processBatch VectorProcessor.init
            {| draws := fun _ => 0.5%Q; drawn := 0 |}
            (map VectorProcessor.sampleQuestion (seq 0 10))))
  = 100%float.
Proof.
  assert (map VectorProcessor.sampleQuestion (seq 0 10) <> []) as Hne
    by discriminate.
  assert (Z.of_nat (length (map VectorProcessor.sampleQuestion (seq 0 10)))
          < 2 ^ 53)%Z as Hlen by reflexivity.
  split; [exact Hne|]. split; [exact Hlen|].
  exact (processBatch_progress_full _ _ _ Hne Hlen).
Defined.

(** ** More of the transformed question *)

(** X21: the content of a transformed question starts with the label
    "Question: " followed by the question, and has no white space at
    either end: trimming it again changes nothing. *)
Theorem transform_content_trimmed (q : QuizQuestion) :
  String.prefix ("Question: " ++ question q)
                (v_content (transformQuestionData q)) = true
  /\ Js.trim (v_content (transformQuestionData q))
     = v_content (transformQuestionData q).
Proof.
  split.
  - rewrite content_shape. unfold content_body.
    rewrite <- (append_assoc "Question: " (question q)), append_assoc.
    apply prefix_app.
  - cbn [transformQuestionData v_content]. apply trim_idem.
Qed.

(** ** The added functions on small inputs *)

Example build_page_two :
  DataConnector.build
    (Some {| DataConnector.bookname := Some "Anatomy";
             DataConnector.chapter := Some "";
             DataConnector.active := Some false;
             DataConnector.limit := Some 25%Z;
             DataConnector.offset := Some 25%Z |})
  = [DataConnector.call_eq "bookname" (DataConnector.CText "Anatomy");
     DataConnector.call_eq "active" (DataConnector.CFlag false);
     DataConnector.call_limit 25;
     DataConnector.call_range 25 49].
Proof. reflexivity. Qed.

Example build_first_page :
  DataConnector.build
    (Some {| DataConnector.bookname := None; DataConnector.chapter := None;
             DataConnector.active := None; DataConnector.limit := None;
             DataConnector.offset := Some 0%Z |})
  = [].
Proof. reflexivity. Qed.

Example percent_rounds_as_binary64 :
  VectorProcessor.percent 28 200 = 14%float
  /\ VectorProcessor.percent 0 8 = 13%float
  /\ VectorProcessor.percent 0 3 = 33%float.
Proof. repeat split; vm_compute; reflexivity. Qed.

Example handleProcessSample_ends :
  let '(st, g) :=
    VectorProcessor.handleProcessSample VectorProcessor.init
      {| draws := fun _ => 0.5%Q; drawn := 0 |} in
  (VectorProcessor.processingStatus st, VectorProcessor.progress st,
   VectorProcessor.processedItems st, VectorProcessor.totalItems st, drawn g)
  = (VectorProcessor.complete, 100%float, 10%nat, 10%nat, (1536 * 10)%nat).
Proof. vm_compute. reflexivity. Qed.

Example testConfig_long_key :
  read_at (configs (snd (testConfig (one_service "sk-or-v1-0123456789") 0)))
          0 k_status
  = Some (CStatus valid).
Proof. vm_compute. reflexivity. Qed.
